(** * FoldOptLib: knowledge-constraint objective and solver facade

    Shallow embedding of
    - [fold_modelling_plugin/objective_functions/geological_knowledge.py]
      (class [GeologicalKnowledge] and [check_fourier_parameters]);
    - [FoldOptLib/solvers/solvers.py] (class [Solver]).

    Numbers are exact rationals ([Q]) in the main embedding: the spec speaks
    of real-valued vectors, and what is proved there is about control flow,
    lookups and the order of summation, never about an arithmetic law.
    Where rounding decides (the order in which the axial-trace terms are
    added), the module [Float64] gives the same methods over binary64
    numbers.  Python exceptions are values of type [exn]; a method of an
    instance is a computation in a state and error monad [M] whose state
    holds the instance and the log of the calls made to the feature
    extractors. *)

From Stdlib Require Import QArith Qabs Qminmax ZArith List String Ascii Bool Lia
  Lqa Permutation Floats.
Import ListNotations.
Open Scope string_scope.
Open Scope Q_scope.
Open Scope list_scope.

(** ** Python values and exceptions *)

Inductive exn : Type :=
| TypeError (msg : string)
| ValueError (msg : string)
| KeyError (key : string)
| IndexError (msg : string)
| NameError (name : string).

Definition result (A : Type) : Type := (exn + A)%type.

Definition okR {A} (a : A) : result A := inr a.
Definition raiseR {A} (e : exn) : result A := inl e.

Definition bindR {A B} (r : result A) (k : A -> result B) : result B :=
  match r with
  | inl e => inl e
  | inr a => k a
  end.

Notation "'let?' x ':=' r 'in' k" := (bindR r (fun x => k))
  (at level 10, x name, r at level 100, k at level 200).

(** A record of a constraint spec is a Python [dict] from field names to
    numbers; dictionaries keep insertion order, so they are association
    lists with first-match lookup. *)
Definition pydict (V : Type) : Type := list (string * V).

Fixpoint dict_get {V} (key : string) (d : pydict V) : option V :=
  match d with
  | [] => None
  | (k, v) :: rest => if String.eqb key k then Some v else dict_get key rest
  end.

(** [key in d] *)
Definition dict_contains {V} (key : string) (d : pydict V) : bool :=
  match dict_get key d with
  | Some _ => true
  | None => false
  end.

Definition keys {V} (d : pydict V) : list string := map fst d.

(** [d[key]] on a dict. *)
Definition dict_item {V} (d : pydict V) (key : string) : result V :=
  match dict_get key d with
  | Some v => okR v
  | None => raiseR (KeyError key)
  end.

Inductive pyobj : Type :=
| PyNone
| PyFloat (q : Q)
| PyList (l : list Q)
| NdArray (a : list Q)
| PyDict (d : pydict Q).

(** [o[key]] with a string key, on any object. *)
Definition subscript (o : pyobj) (key : string) : result Q :=
  match o with
  | PyDict d => dict_item d key
  | NdArray _ =>
      raiseR (IndexError "only integers, slices, ellipsis, newaxis and integer or boolean arrays are valid indices")
  | PyList _ => raiseR (TypeError "list indices must be integers or slices, not str")
  | PyFloat _ => raiseR (TypeError "'float' object is not subscriptable")
  | PyNone => raiseR (TypeError "'NoneType' object is not subscriptable")
  end.

(** [needle in haystack] on strings. *)
Fixpoint str_contains (needle haystack : string) : bool :=
  String.prefix needle haystack ||
  match haystack with
  | EmptyString => false
  | String _ rest => str_contains needle rest
  end.

(** ** numpy operations used by the source *)

(** [np.argmin]: index of the first occurrence of the minimum. *)
Fixpoint argmin_from (best : Q) (besti i : nat) (l : list Q) : nat :=
  match l with
  | [] => besti
  | v :: rest =>
      if Qlt_le_dec v best then argmin_from v i (S i) rest
      else argmin_from best besti (S i) rest
  end.

Definition argmin (l : list Q) : nat :=
  match l with
  | [] => O
  | v :: rest => argmin_from v O 1%nat rest
  end.

(** [np.linspace(start, stop, num)]: [num] evenly spaced samples
    [arange(0, num) * step + start] with [step = (stop - start) / (num - 1)],
    the last one set to [stop] itself. *)
Definition linspace (start stop : Q) (num : nat) : list Q :=
  match num with
  | O => []
  | 1%nat => [start]
  | S div =>
      let step := (stop - start) / inject_Z (Z.of_nat div) in
      map (fun i => inject_Z (Z.of_nat i) * step + start) (seq 0 div) ++ [stop]
  end.

(** [a.min()] and [a.max()]; numpy refuses an empty array. *)
Definition array_min (a : list Q) : result Q :=
  match a with
  | [] => raiseR (ValueError "zero-size array to reduction operation minimum which has no identity")
  | v :: rest => okR (fold_left Qmin rest v)
  end.

Definition array_max (a : list Q) : result Q :=
  match a with
  | [] => raiseR (ValueError "zero-size array to reduction operation maximum which has no identity")
  | v :: rest => okR (fold_left Qmax rest v)
  end.

(** ** [check_fourier_parameters] *)

Definition check_fourier_parameters (theta : pyobj) : result unit :=
  match theta with
  | NdArray a =>
      if (List.length a <? 4)%nat
      then raiseR (ValueError "`theta` should have at least 4 Fourier series parameters.")
      else okR tt
  | _ => raiseR (TypeError "`theta` should be a numpy array.")
  end.

(** ** The collaborators

    [gaussian_log_likelihood] and [fourier_series_x_intercepts] are imported
    from helper modules, [fourier_series] from LoopStructural, and
    [calculate_tightness] and [calculate_asymmetry] are inherited from
    [SPlotProcessor]; none of them is part of the sources at hand, so they
    are taken as parameters.  The two inherited descriptors may read the
    frame coordinates of the instance. *)
Class Collaborators : Type := {
  gaussian_log_likelihood : Q -> Q -> Q -> Q;
  fourier_series_x_intercepts : list Q -> list Q -> list Q;
  fourier_series : list Q -> list Q -> list Q;
  calculate_tightness : list Q -> list Q -> Q;
  calculate_asymmetry : list Q -> list Q -> Q
}.

(** ** The instance and the monad *)

(** The bound methods stored in [constraint_function_map]. *)
Inductive method : Type :=
| asymmetry_objective
| tightness_objective
| wavelength_objective
| axis_wavelength_objective
| axial_trace_objective
| hinge_angle_objective.

Record GeologicalKnowledge : Type := {
  x : list Q;
  constraints : pydict pyobj;
  constraint_names : list string;
  constraint_function_map : option (pydict method);
  intercept_function : list Q -> list Q -> list Q;
  splot_function : list Q -> list Q -> list Q
}.

(** Calls made to the feature extractors, in the order they happen. *)
Inductive extraction : Type :=
| ExtractIntercepts (xs theta : list Q)
| ExtractTightness (theta : list Q)
| ExtractAsymmetry (theta : list Q).

Record world : Type := {
  this : GeologicalKnowledge;
  extractions : list extraction
}.

Definition M (A : Type) : Type := world -> world * result A.

Definition ret {A} (a : A) : M A := fun w => (w, inr a).
Definition raise {A} (e : exn) : M A := fun w => (w, inl e).

Definition bind {A B} (c : M A) (k : A -> M B) : M B :=
  fun w =>
    match c w with
    | (w', inl e) => (w', inl e)
    | (w', inr a) => k a w'
    end.

Definition lift {A} (r : result A) : M A := fun w => (w, r).

Notation "x <- c ;; k" := (bind c (fun x => k))
  (at level 61, c at next level, right associativity).
Notation "c ;;; k" := (bind c (fun _ => k))
  (at level 61, right associativity).

Definition get_x : M (list Q) := fun w => (w, inr (x (this w))).
Definition get_constraints : M (pydict pyobj) :=
  fun w => (w, inr (constraints (this w))).
Definition get_constraint_names : M (list string) :=
  fun w => (w, inr (constraint_names (this w))).
Definition get_constraint_function_map : M (option (pydict method)) :=
  fun w => (w, inr (constraint_function_map (this w))).
Definition get_intercept_function : M (list Q -> list Q -> list Q) :=
  fun w => (w, inr (intercept_function (this w))).

Definition set_constraint_function_map (m : option (pydict method)) : M unit :=
  fun w =>
    ({| this := {| x := x (this w);
                   constraints := constraints (this w);
                   constraint_names := constraint_names (this w);
                   constraint_function_map := m;
                   intercept_function := intercept_function (this w);
                   splot_function := splot_function (this w) |};
        extractions := extractions w |}, inr tt).

Definition record_extraction (e : extraction) : M unit :=
  fun w => ({| this := this w; extractions := extractions w ++ [e] |}, inr tt).

Definition run {A} (c : M A) (w : world) : world * result A := c w.
Definition outcome {A} (c : M A) (w : world) : result A := snd (c w).
Definition world_after {A} (c : M A) (w : world) : world := fst (c w).

(** ** [GeologicalKnowledge] *)

Inductive HessianUpdateStrategy : Type := BFGS.

(** [scipy.optimize.NonlinearConstraint(fun, lb, ub, jac, hess)]. *)
Record NonlinearConstraint : Type := {
  nlc_fun : method;
  nlc_lb : Q;
  nlc_ub : Q;
  nlc_jac : string;
  nlc_hess : HessianUpdateStrategy
}.

Section Knowledge.
Context {E : Collaborators}.

Definition __init__ (xs : list Q) (cs : pydict pyobj) : GeologicalKnowledge :=
  {| x := xs;
     constraints := cs;
     constraint_names :=
       ["asymmetry"; "tightness"; "fold_wavelength"; "axial_traces";
        "hinge_angle"; "axis_wavelength"];
     constraint_function_map := None;
     intercept_function := fourier_series_x_intercepts;
     splot_function := fourier_series |}.

(** Modelled from the spec: the methods call [self.check_fourier_parameters],
    an attribute that [SPlotProcessor] (absent from the sources) must
    provide; the spec gives every sub-objective the validation rule that the
    module-level [check_fourier_parameters] implements, so the attribute is
    taken to be that function. *)
Definition self_check_fourier_parameters (theta : pyobj) : M unit :=
  lift (check_fourier_parameters theta).

(** The array behind a validated [theta], as the extractors receive it. *)
Definition ndarray_of (theta : pyobj) : result (list Q) :=
  match theta with
  | NdArray a => okR a
  | _ => raiseR (TypeError "`theta` should be a numpy array.")
  end.

(** [a[i]] *)
Definition array_item (a : list Q) (i : nat) : result Q :=
  match nth_error a i with
  | Some v => okR v
  | None => raiseR (IndexError "index is out of bounds")
  end.

(** [self.constraints[name][field]] *)
Definition constraint_field (name field : string) : M Q :=
  cs <- get_constraints ;;
  lift (let? info := dict_item cs name in subscript info field).

(** The body of the loop over the axial-trace entries: the value added to
    [likelihood] for one entry.  The differences [mu - intercepts] are exact
    here; [Float64.axial_trace_term] rounds them as numpy does. *)
Definition axial_trace_term (intercepts : list Q) (trace : pyobj) : result Q :=
  let? mu := subscript trace "mu" in
  let? sigma := subscript trace "sigma" in
  let? w := subscript trace "w" in
  let dist := map (fun i => mu - i) intercepts in
  okR (- gaussian_log_likelihood (nth (argmin dist) intercepts 0) mu sigma * w).

Fixpoint accumulate_axial_traces (intercepts : list Q)
    (items : pydict pyobj) (likelihood : Q) : result Q :=
  match items with
  | [] => okR likelihood
  | (_, trace) :: rest =>
      let? t := axial_trace_term intercepts trace in
      accumulate_axial_traces intercepts rest (likelihood + t)
  end.

Definition is_axial_trace_item (item : string * pyobj) : bool :=
  str_contains "axial_trace" (fst item).

Definition axial_trace_objective_function (theta : pyobj) : M Q :=
  self_check_fourier_parameters theta ;;;
  f <- get_intercept_function ;;
  xs <- get_x ;;
  a <- lift (ndarray_of theta) ;;
  record_extraction (ExtractIntercepts xs a) ;;;
  let intercepts := f xs a in
  if (List.length intercepts =? 0)%nat then ret 999
  else
    cs <- get_constraints ;;
    lift (accumulate_axial_traces intercepts (filter is_axial_trace_item cs) 0).

Definition wavelength_objective_function (theta : pyobj) : M Q :=
  self_check_fourier_parameters theta ;;;
  mu <- constraint_field "fold_wavelength" "mu" ;;
  sigma <- constraint_field "fold_wavelength" "sigma" ;;
  a <- lift (ndarray_of theta) ;;
  theta3 <- lift (array_item a 3) ;;
  let likelihood := - gaussian_log_likelihood theta3 mu sigma in
  w <- constraint_field "fold_wavelength" "w" ;;
  ret (likelihood * w).

Definition axis_wavelength_objective_function (theta : pyobj) : M Q :=
  self_check_fourier_parameters theta ;;;
  mu <- constraint_field "axis_wavelength" "mu" ;;
  sigma <- constraint_field "axis_wavelength" "sigma" ;;
  a <- lift (ndarray_of theta) ;;
  theta3 <- lift (array_item a 3) ;;
  let likelihood := - gaussian_log_likelihood theta3 mu sigma in
  w <- constraint_field "axis_wavelength" "w" ;;
  ret (likelihood * w).

(** [self.calculate_tightness(theta)] *)
Definition self_calculate_tightness (theta : pyobj) : M Q :=
  xs <- get_x ;;
  a <- lift (ndarray_of theta) ;;
  record_extraction (ExtractTightness a) ;;;
  ret (calculate_tightness xs a).

(** [self.calculate_asymmetry(theta)] *)
Definition self_calculate_asymmetry (theta : pyobj) : M Q :=
  xs <- get_x ;;
  a <- lift (ndarray_of theta) ;;
  record_extraction (ExtractAsymmetry a) ;;;
  ret (calculate_asymmetry xs a).

Definition tightness_objective_function (theta : pyobj) : M Q :=
  self_check_fourier_parameters theta ;;;
  mu <- constraint_field "tightness" "mu" ;;
  sigma <- constraint_field "tightness" "sigma" ;;
  w <- constraint_field "tightness" "w" ;;
  tightness <- self_calculate_tightness theta ;;
  let likelihood := - gaussian_log_likelihood tightness mu sigma in
  ret (likelihood * w).

Definition hinge_angle_objective_function (theta : pyobj) : M Q :=
  self_check_fourier_parameters theta ;;;
  mu <- constraint_field "hinge_angle" "mu" ;;
  sigma <- constraint_field "hinge_angle" "sigma" ;;
  w <- constraint_field "hinge_angle" "w" ;;
  hinge_angle <- self_calculate_tightness theta ;;
  let likelihood := - gaussian_log_likelihood hinge_angle mu sigma in
  ret (likelihood * w).

Definition asymmetry_objective_function (theta : pyobj) : M Q :=
  self_check_fourier_parameters theta ;;;
  mu <- constraint_field "asymmetry" "mu" ;;
  sigma <- constraint_field "asymmetry" "sigma" ;;
  w <- constraint_field "asymmetry" "w" ;;
  asymmetry <- self_calculate_asymmetry theta ;;
  let likelihood := - gaussian_log_likelihood asymmetry mu sigma in
  ret (likelihood * w).

(** Calling a bound method held in the function map. *)
Definition call_method (f : method) (theta : pyobj) : M Q :=
  match f with
  | asymmetry_objective => asymmetry_objective_function theta
  | tightness_objective => tightness_objective_function theta
  | wavelength_objective => wavelength_objective_function theta
  | axis_wavelength_objective => axis_wavelength_objective_function theta
  | axial_trace_objective => axial_trace_objective_function theta
  | hinge_angle_objective => hinge_angle_objective_function theta
  end.

Definition the_constraint_function_map : pydict method :=
  [("asymmetry", asymmetry_objective);
   ("tightness", tightness_objective);
   ("fold_wavelength", wavelength_objective);
   ("axis_wavelength", axis_wavelength_objective);
   ("axial_traces", axial_trace_objective);
   ("hinge_angle", hinge_angle_objective)].

Definition setup_constraint_functions : M unit :=
  set_constraint_function_map (Some the_constraint_function_map).

(** [self.constraint_function_map[key]] *)
Definition constraint_function (key : string) : M method :=
  m <- get_constraint_function_map ;;
  match m with
  | Some d => lift (dict_item d key)
  | None => raise (TypeError "'NoneType' object is not subscriptable")
  end.

(** The summation loop of [__call__]. *)
Fixpoint sum_constraints (names : list string) (theta : pyobj)
    (total_objective_value : Q) : M Q :=
  match names with
  | [] => ret total_objective_value
  | key :: rest =>
      cs <- get_constraints ;;
      if dict_contains key cs then
        f <- constraint_function key ;;
        v <- call_method f theta ;;
        sum_constraints rest theta (total_objective_value + v)
      else sum_constraints rest theta total_objective_value
  end.

Definition __call__ (theta : pyobj) : M Q :=
  self_check_fourier_parameters theta ;;;
  setup_constraint_functions ;;;
  names <- get_constraint_names ;;
  sum_constraints names theta 0.

(** The loop of [prepare_and_setup_constraints] over
    [self.constraints.items()]. *)
Fixpoint build_constraints (items : pydict pyobj)
    (acc : list NonlinearConstraint) : M (list NonlinearConstraint) :=
  match items with
  | [] => ret acc
  | (constraint_name, constraint_info) :: rest =>
      match constraint_info with
      | PyDict _ =>
          lb <- lift (subscript constraint_info "lb") ;;
          ub <- lift (subscript constraint_info "ub") ;;
          mu <- lift (subscript constraint_info "mu") ;;
          sigma <- lift (subscript constraint_info "sigma") ;;
          let val := map (fun v => - gaussian_log_likelihood v mu sigma)
                         (linspace lb ub 100) in
          f <- constraint_function constraint_name ;;
          lo <- lift (array_min val) ;;
          hi <- lift (array_max val) ;;
          build_constraints rest
            (acc ++ [{| nlc_fun := f; nlc_lb := lo; nlc_ub := hi;
                        nlc_jac := "2-point"; nlc_hess := BFGS |}])
      | _ => raise (TypeError "`constraint_info` should be a dictionary.")
      end
  end.

Definition prepare_and_setup_constraints : M (list NonlinearConstraint) :=
  setup_constraint_functions ;;;
  cs <- get_constraints ;;
  build_constraints cs [].

End Knowledge.

(** ** [Solver] *)

(** Modelled from the spec: the enumeration [SolverType] lives in
    [FoldOptLib.datatypes], which is not part of the sources at hand; the
    spec names four strategies, and [solvers.py] uses these four members. *)
Inductive SolverType : Type :=
| DIFFERENTIAL_EVOLUTION
| CONSTRAINED_TRUST_REGION
| UNCONSTRAINED_TRUST_REGION
| PARTICLE_SWARM.

Definition SolverType_eqb (a b : SolverType) : bool :=
  match a, b with
  | DIFFERENTIAL_EVOLUTION, DIFFERENTIAL_EVOLUTION
  | CONSTRAINED_TRUST_REGION, CONSTRAINED_TRUST_REGION
  | UNCONSTRAINED_TRUST_REGION, UNCONSTRAINED_TRUST_REGION
  | PARTICLE_SWARM, PARTICLE_SWARM => true
  | _, _ => false
  end.

Definition SolverType_name (a : SolverType) : string :=
  match a with
  | DIFFERENTIAL_EVOLUTION => "SolverType.DIFFERENTIAL_EVOLUTION"
  | CONSTRAINED_TRUST_REGION => "SolverType.CONSTRAINED_TRUST_REGION"
  | UNCONSTRAINED_TRUST_REGION => "SolverType.UNCONSTRAINED_TRUST_REGION"
  | PARTICLE_SWARM => "SolverType.PARTICLE_SWARM"
  end.

(** The record scipy's optimizers return. *)
Record OptimizeResult : Type := {
  opt_x : list Q;
  opt_fun : Q;
  opt_success : bool;
  opt_nit : nat;
  opt_nfev : nat
}.

(** The Python values that reach the solver's operations. *)
Inductive value : Type :=
| VNone
| VCallable (f : list Q -> Q)
| VPairs (b : list (Q * Q))
| VArray (a : list Q)
| VStr (s : string)
| VInt (z : Z)
| VBool (b : bool)
| VFloats (t : list Q)
| VConstraints (cs : list NonlinearConstraint)
| VDict (d : list (string * value))
| VGlobal (name : string).

(** The type hints that beartype enforces on the parameters. *)
Inductive hint : Type :=
| HAny
| HCallable
| HTupleListArray
| HStrArray
| HArray
| HInt
| HBool
| HStr
| HTupleFloatFloat.

Definition conforms (h : hint) (v : value) : bool :=
  match h, v with
  | HAny, _ => true
  | HCallable, VCallable _ => true
  | HCallable, VGlobal _ => true
  | HTupleListArray, VPairs _ => true
  | HTupleListArray, VArray _ => true
  | HTupleListArray, VFloats _ => true
  | HStrArray, VStr _ => true
  | HStrArray, VArray _ => true
  | HArray, VArray _ => true
  | HInt, VInt _ => true
  | HInt, VBool _ => true
  | HBool, VBool _ => true
  | HStr, VStr _ => true
  | HTupleFloatFloat, VFloats [_; _] => true
  | _, _ => false
  end.

(** A parameter of a signature: name, hint, default value. *)
Definition parameter : Type := (string * hint * option value)%type.

(** Binding the positional arguments to the parameters, in order. *)
Fixpoint bind_positional (fname : string) (params : list parameter)
    (positional : list value) : result (pydict value) :=
  match positional, params with
  | [], _ => okR []
  | _ :: _, [] =>
      raiseR (TypeError (fname ++ "() takes fewer positional arguments"))
  | v :: vs, (name, _, _) :: ps =>
      let? rest := bind_positional fname ps vs in
      okR ((name, v) :: rest)
  end.

Definition is_parameter (params : list parameter) (name : string) : bool :=
  existsb (fun p => String.eqb name (fst (fst p))) params.

(** Binding the keyword arguments: a keyword naming a parameter fills it
    (twice is an error), any other keyword goes to [**kwargs]. *)
Fixpoint bind_keywords (fname : string) (params : list parameter)
    (keywords locals kwargs : pydict value)
    : result (pydict value * pydict value) :=
  match keywords with
  | [] => okR (locals, kwargs)
  | (name, v) :: rest =>
      if is_parameter params name then
        if dict_contains name locals
        then raiseR (TypeError (fname ++ "() got multiple values for argument '" ++ name ++ "'"))
        else bind_keywords fname params rest (locals ++ [(name, v)])%list kwargs
      else bind_keywords fname params rest locals (kwargs ++ [(name, v)])%list
  end.

(** Defaults for the parameters left unfilled, then the hints. *)
Fixpoint bind_defaults (fname : string) (params : list parameter)
    (locals : pydict value) : result (pydict value) :=
  match params with
  | [] => okR []
  | (name, h, default) :: ps =>
      let? v :=
        match dict_get name locals, default with
        | Some v, _ => okR v
        | None, Some d => okR d
        | None, None =>
            raiseR (TypeError (fname ++ "() missing required argument '" ++ name ++ "'"))
        end in
      if conforms h v then
        let? rest := bind_defaults fname ps locals in
        okR ((name, v) :: rest)
      else raiseR (TypeError (fname ++ "() parameter " ++ name ++ " violates its type hint"))
  end.

(** The local variables of a call: the parameters in order, then [kwargs]. *)
Definition bind_arguments (fname : string) (params : list parameter)
    (positional : list value) (keywords : pydict value)
    : result (pydict value) :=
  let? by_position := bind_positional fname params positional in
  let? filled := bind_keywords fname params keywords by_position [] in
  let? locals := bind_defaults fname params (fst filled) in
  okR (locals ++ [("kwargs", VDict (snd filled))])%list.

(** The names bound at module level in [solvers.py]. *)
Definition module_globals : list string :=
  ["Callable"; "Dict"; "Any"; "Tuple"; "Union"; "List"; "numpy"; "minimize";
   "differential_evolution"; "SolverType"; "beartype"; "Solver"].

(** Loading a name inside a function body: the local variables first, then
    the module's globals.  The bodies at hand load no builtin. *)
Definition load_name (locals : pydict value) (name : string) : result value :=
  match dict_get name locals with
  | Some v => okR v
  | None =>
      if existsb (String.eqb name) module_globals then okR (VGlobal name)
      else raiseR (NameError name)
  end.

(** [f(..., k=v, ..., **kwargs)]: a keyword given twice is an error. *)
Fixpoint merge_keywords (fname : string) (explicit kwargs : pydict value)
    : result (pydict value) :=
  match kwargs with
  | [] => okR explicit
  | (name, v) :: rest =>
      if dict_contains name explicit
      then raiseR (TypeError (fname ++ "() got multiple values for keyword argument '" ++ name ++ "'"))
      else merge_keywords fname (explicit ++ [(name, v)])%list rest
  end.

Definition unpack_keywords (fname : string) (explicit : pydict value)
    (mapping : value) : result (pydict value) :=
  match mapping with
  | VDict d => merge_keywords fname explicit d
  | _ => raiseR (TypeError (fname ++ "() argument after ** must be a mapping"))
  end.

(** scipy's optimizers are external: positional arguments and keywords in,
    a result record or an exception out. *)
Class Scipy : Type := {
  scipy_differential_evolution :
    list value -> pydict value -> result OptimizeResult;
  scipy_minimize : list value -> pydict value -> result OptimizeResult
}.

Section SolverClass.
Context {S : Scipy}.

(** Calling a module-level object. *)
Definition call_global (callee : value) (positional : list value)
    (keywords : pydict value) : result OptimizeResult :=
  match callee with
  | VGlobal "differential_evolution" =>
      scipy_differential_evolution positional keywords
  | VGlobal "minimize" => scipy_minimize positional keywords
  | _ => raiseR (TypeError "object is not callable")
  end.

Definition differential_evolution_parameters : list parameter :=
  [("objective_function", HCallable, None);
   ("bounds", HTupleListArray, None);
   ("init", HStrArray, Some (VStr "halton"));
   ("maxiter", HInt, Some (VInt 5000));
   ("seed", HInt, Some (VInt 80));
   ("polish", HBool, Some (VBool false));
   ("strategy", HStr, Some (VStr "best2exp"));
   ("mutation", HTupleFloatFloat, Some (VFloats [3 # 10; 99 # 100]))].

(** [Solver.differential_evolution], a static method: the arguments are
    bound and checked against the hints, then the body runs. *)
Definition differential_evolution (positional : list value)
    (keywords : pydict value) : result OptimizeResult :=
  let fname := "differential_evolution" in
  let? locals := bind_arguments fname differential_evolution_parameters
                   positional keywords in
  let? callee := load_name locals "differential_evolution" in
  let? a_objective := load_name locals "objective_function" in
  let? k_bounds := load_name locals "bounds" in
  let? k_init := load_name locals "init" in
  let? k_maxiter := load_name locals "maxiter" in
  let? k_seed := load_name locals "seed" in
  let? k_polish := load_name locals "polish" in
  let? k_strategy := load_name locals "strategy" in
  let? k_mutation := load_name locals "mutation" in
  let? k_callback := load_name locals "callback" in
  let? kwargs := load_name locals "kwargs" in
  let? kws := unpack_keywords fname
                [("bounds", k_bounds); ("init", k_init);
                 ("maxiter", k_maxiter); ("seed", k_seed);
                 ("polish", k_polish); ("strategy", k_strategy);
                 ("mutation", k_mutation); ("callback", k_callback)]
                kwargs in
  let? opt := call_global callee [a_objective] kws in
  okR opt.

Definition constrained_trust_region_parameters : list parameter :=
  [("objective_function", HCallable, None);
   ("x0", HArray, None);
   ("constraints", HAny, Some VNone)].

(** [Solver.constrained_trust_region], a static method. *)
Definition constrained_trust_region (positional : list value)
    (keywords : pydict value) : result OptimizeResult :=
  let fname := "constrained_trust_region" in
  let? locals := bind_arguments fname constrained_trust_region_parameters
                   positional keywords in
  let? callee := load_name locals "minimize" in
  let? a_objective := load_name locals "objective_function" in
  let? a_x0 := load_name locals "x0" in
  let? k_constraints := load_name locals "constraints" in
  let? kwargs := load_name locals "kwargs" in
  let? kws := unpack_keywords fname
                [("method", VStr "trust-constr"); ("jac", VStr "2-point");
                 ("constraints", k_constraints)]
                kwargs in
  let? opt := call_global callee [a_objective; a_x0] kws in
  okR opt.

(** What a lookup in [solver_map] yields: [None] or a callable. *)
Inductive operation : Type :=
| OpNone
| OpFunction (f : list value -> pydict value -> result OptimizeResult).

Record Solver : Type := {
  solver : string;
  solver_kwargs : pydict value
}.

Definition Solver_init (solver_name : string) (kw : pydict value) : Solver :=
  {| solver := solver_name; solver_kwargs := kw |}.

Fixpoint solver_map_get (key : SolverType)
    (m : list (SolverType * operation)) : option operation :=
  match m with
  | [] => None
  | (k, v) :: rest =>
      if SolverType_eqb key k then Some v else solver_map_get key rest
  end.

(** [Solver.__getitem__] *)
Definition __getitem__ (self : Solver) (solver_type : SolverType)
    : result operation :=
  let solver_map :=
    [(DIFFERENTIAL_EVOLUTION, OpFunction differential_evolution);
     (CONSTRAINED_TRUST_REGION, OpFunction constrained_trust_region);
     (UNCONSTRAINED_TRUST_REGION, OpNone);
     (PARTICLE_SWARM, OpNone)] in
  match solver_map_get solver_type solver_map with
  | Some op => okR op
  | None => raiseR (KeyError (SolverType_name solver_type))
  end.

(** Calling what a lookup returned. *)
Definition call_operation (op : operation) (positional : list value)
    (keywords : pydict value) : result OptimizeResult :=
  match op with
  | OpFunction f => f positional keywords
  | OpNone => raiseR (TypeError "'NoneType' object is not callable")
  end.

End SolverClass.

(** ** The methods over binary64 numbers

    The total objective and its six terms once more, over IEEE binary64
    numbers and as pure functions of the instance's fields (no log of
    extractions; [theta] is the array itself, so only its length is
    checked; the function map is the fixed one).  The sums and differences
    round here as they do in numpy. *)
Module Float64.

Class Collaborators : Type := {
  gaussian_log_likelihood : float -> float -> float -> float;
  fourier_series_x_intercepts : list float -> list float -> list float;
  calculate_tightness : list float -> list float -> float;
  calculate_asymmetry : list float -> list float -> float
}.

Inductive pyobj : Type :=
| PyFloat (f : float)
| PyDict (d : pydict float).

Definition subscript (o : pyobj) (key : string) : result float :=
  match o with
  | PyDict d => dict_item d key
  | PyFloat _ => raiseR (TypeError "'float' object is not subscriptable")
  end.

(** [np.argmin]: the first occurrence of the minimum, a NaN counting as
    the minimum. *)
Fixpoint argmin_from (best : float) (besti i : nat) (l : list float) : nat :=
  match l with
  | [] => besti
  | v :: rest =>
      if PrimFloat.is_nan best then besti
      else if PrimFloat.is_nan v || PrimFloat.ltb v best
      then argmin_from v i (S i) rest
      else argmin_from best besti (S i) rest
  end.

Definition argmin (l : list float) : nat :=
  match l with
  | [] => O
  | v :: rest => argmin_from v O 1%nat rest
  end.

Record GeologicalKnowledge : Type := {
  x : list float;
  constraints : pydict pyobj
}.

Definition constraint_names : list string :=
  ["asymmetry"; "tightness"; "fold_wavelength"; "axial_traces";
   "hinge_angle"; "axis_wavelength"].

Definition check_fourier_parameters (theta : list float) : result unit :=
  if (List.length theta <? 4)%nat
  then raiseR (ValueError "`theta` should have at least 4 Fourier series parameters.")
  else okR tt.

Section Methods.
Context {E : Collaborators}.

Definition constraint_field (self : GeologicalKnowledge)
    (name field : string) : result float :=
  let? info := dict_item (constraints self) name in subscript info field.

Definition axial_trace_term (intercepts : list float) (trace : pyobj)
    : result float :=
  let? mu := subscript trace "mu" in
  let? sigma := subscript trace "sigma" in
  let? w := subscript trace "w" in
  let dist := map (fun i => (mu - i)%float) intercepts in
  okR (- gaussian_log_likelihood (nth (argmin dist) intercepts 0%float)
           mu sigma * w)%float.

Fixpoint accumulate_axial_traces (intercepts : list float)
    (items : pydict pyobj) (likelihood : float) : result float :=
  match items with
  | [] => okR likelihood
  | (_, trace) :: rest =>
      let? t := axial_trace_term intercepts trace in
      accumulate_axial_traces intercepts rest (likelihood + t)%float
  end.

Definition is_axial_trace_item (item : string * pyobj) : bool :=
  str_contains "axial_trace" (fst item).

Definition axial_trace_objective_function (self : GeologicalKnowledge)
    (theta : list float) : result float :=
  let? _ := check_fourier_parameters theta in
  let intercepts := fourier_series_x_intercepts (x self) theta in
  if (List.length intercepts =? 0)%nat then okR 999%float
  else accumulate_axial_traces intercepts
         (filter is_axial_trace_item (constraints self)) 0%float.

Definition array_item (a : list float) (i : nat) : result float :=
  match nth_error a i with
  | Some v => okR v
  | None => raiseR (IndexError "index is out of bounds")
  end.

Definition wavelength_objective_function (self : GeologicalKnowledge)
    (theta : list float) : result float :=
  let? _ := check_fourier_parameters theta in
  let? mu := constraint_field self "fold_wavelength" "mu" in
  let? sigma := constraint_field self "fold_wavelength" "sigma" in
  let? theta3 := array_item theta 3 in
  let likelihood := (- gaussian_log_likelihood theta3 mu sigma)%float in
  let? w := constraint_field self "fold_wavelength" "w" in
  okR (likelihood * w)%float.

Definition axis_wavelength_objective_function (self : GeologicalKnowledge)
    (theta : list float) : result float :=
  let? _ := check_fourier_parameters theta in
  let? mu := constraint_field self "axis_wavelength" "mu" in
  let? sigma := constraint_field self "axis_wavelength" "sigma" in
  let? theta3 := array_item theta 3 in
  let likelihood := (- gaussian_log_likelihood theta3 mu sigma)%float in
  let? w := constraint_field self "axis_wavelength" "w" in
  okR (likelihood * w)%float.

Definition tightness_objective_function (self : GeologicalKnowledge)
    (theta : list float) : result float :=
  let? _ := check_fourier_parameters theta in
  let? mu := constraint_field self "tightness" "mu" in
  let? sigma := constraint_field self "tightness" "sigma" in
  let? w := constraint_field self "tightness" "w" in
  let tightness := calculate_tightness (x self) theta in
  let likelihood := (- gaussian_log_likelihood tightness mu sigma)%float in
  okR (likelihood * w)%float.

Definition hinge_angle_objective_function (self : GeologicalKnowledge)
    (theta : list float) : result float :=
  let? _ := check_fourier_parameters theta in
  let? mu := constraint_field self "hinge_angle" "mu" in
  let? sigma := constraint_field self "hinge_angle" "sigma" in
  let? w := constraint_field self "hinge_angle" "w" in
  let hinge_angle := calculate_tightness (x self) theta in
  let likelihood := (- gaussian_log_likelihood hinge_angle mu sigma)%float in
  okR (likelihood * w)%float.

Definition asymmetry_objective_function (self : GeologicalKnowledge)
    (theta : list float) : result float :=
  let? _ := check_fourier_parameters theta in
  let? mu := constraint_field self "asymmetry" "mu" in
  let? sigma := constraint_field self "asymmetry" "sigma" in
  let? w := constraint_field self "asymmetry" "w" in
  let asymmetry := calculate_asymmetry (x self) theta in
  let likelihood := (- gaussian_log_likelihood asymmetry mu sigma)%float in
  okR (likelihood * w)%float.

Definition call_method (self : GeologicalKnowledge) (f : method)
    (theta : list float) : result float :=
  match f with
  | asymmetry_objective => asymmetry_objective_function self theta
  | tightness_objective => tightness_objective_function self theta
  | wavelength_objective => wavelength_objective_function self theta
  | axis_wavelength_objective => axis_wavelength_objective_function self theta
  | axial_trace_objective => axial_trace_objective_function self theta
  | hinge_angle_objective => hinge_angle_objective_function self theta
  end.

Fixpoint sum_constraints (self : GeologicalKnowledge) (names : list string)
    (theta : list float) (total_objective_value : float) : result float :=
  match names with
  | [] => okR total_objective_value
  | key :: rest =>
      if dict_contains key (constraints self) then
        let? f := dict_item the_constraint_function_map key in
        let? v := call_method self f theta in
        sum_constraints self rest theta (total_objective_value + v)%float
      else sum_constraints self rest theta total_objective_value
  end.

Definition __call__ (self : GeologicalKnowledge) (theta : list float)
    : result float :=
  let? _ := check_fourier_parameters theta in
  sum_constraints self constraint_names theta 0%float.

End Methods.

(** A stand-in for the collaborators: the quadratic part of the Gaussian
    log-density and one intercept. *)
Definition example_collaborators : Collaborators :=
  {| gaussian_log_likelihood :=
       fun v mu sigma =>
         (- ((v - mu) * (v - mu)) / (2 * sigma * sigma))%float;
     fourier_series_x_intercepts := fun _ _ => [1%float];
     calculate_tightness := fun _ _ => 45%float;
     calculate_asymmetry := fun _ _ => 0%float |}.

(** A target record of mean 0 and deviation 1 with the weight [w]. *)
Definition example_target (w : float) : pyobj :=
  PyDict [("mu", 0%float); ("sigma", 1%float); ("w", w)].



Definition example_theta : list float :=
  [0%float; 1%float; 1%float; 500%float].

End Float64.

(** ** Definitions that follow the spec's words *)

(** The intercept at minimum absolute distance of [mu]: what the spec asks
    the axial-trace term to select. *)
Definition nearest_intercept (mu : Q) (intercepts : list Q) : Q :=
  nth (argmin (map (fun i => Qabs (mu - i)) intercepts)) intercepts 0.

(** The intercept that the source's [intercepts[np.argmin(dist)]] selects. *)
Definition selected_intercept (mu : Q) (intercepts : list Q) : Q :=
  nth (argmin (map (fun i => mu - i) intercepts)) intercepts 0.

(** Summing results in order, the first exception winning. *)
Fixpoint sum_results (rs : list (result Q)) (total : Q) : result Q :=
  match rs with
  | [] => okR total
  | r :: rest => let? v := r in sum_results rest (total + v)
  end.

Definition is_ndarray (theta : pyobj) : bool :=
  match theta with
  | NdArray _ => true
  | _ => false
  end.


(** An entry is record-shaped: a mapping with the fields that the
    restricted-mode construction reads. *)
Definition record_shaped (info : pyobj) : bool :=
  match info with
  | PyDict d =>
      dict_contains "lb" d && dict_contains "ub" d &&
      dict_contains "mu" d && dict_contains "sigma" d
  | _ => false
  end.

(** An entry that the construction can turn into a descriptor: record-shaped
    and named after one of the six functions of the map. *)
Definition constructible {E : Collaborators} (item : string * pyobj) : bool :=
  record_shaped (snd item) && dict_contains (fst item) the_constraint_function_map.

(** The descriptor the spec describes for an entry: the function mapped to
    the entry's name, bounded by the extreme values of the negative
    log-likelihood over 100 evenly spaced points of [[lb, ub]]. *)
Definition likelihood_profile {E : Collaborators} (lb ub mu sigma : Q) : list Q :=
  map (fun v => - gaussian_log_likelihood v mu sigma) (linspace lb ub 100).

Definition describes {E : Collaborators} (item : string * pyobj)
    (c : NonlinearConstraint) : Prop :=
  exists d lb ub mu sigma,
    snd item = PyDict d /\
    dict_get "lb" d = Some lb /\ dict_get "ub" d = Some ub /\
    dict_get "mu" d = Some mu /\ dict_get "sigma" d = Some sigma /\
    dict_get (fst item) the_constraint_function_map = Some (nlc_fun c) /\
    In (nlc_lb c) (likelihood_profile lb ub mu sigma) /\
    (forall v, In v (likelihood_profile lb ub mu sigma) -> nlc_lb c <= v) /\
    In (nlc_ub c) (likelihood_profile lb ub mu sigma) /\
    (forall v, In v (likelihood_profile lb ub mu sigma) -> v <= nlc_ub c) /\
    nlc_jac c = "2-point" /\ nlc_hess c = BFGS /\
    nlc_lb c <= nlc_ub c.

(** The first of the fields read by the construction that [d] lacks. *)
Definition first_missing_field (d : pydict Q) : string :=
  if negb (dict_contains "lb" d) then "lb"
  else if negb (dict_contains "ub" d) then "ub"
  else if negb (dict_contains "mu" d) then "mu"
  else "sigma".

(** The exception an entry that is not constructible ends the construction
    with. *)
Definition construction_failure (item : string * pyobj) : exn :=
  match snd item with
  | PyDict d =>
      if record_shaped (snd item) then KeyError (fst item)
      else KeyError (first_missing_field d)
  | _ => TypeError "`constraint_info` should be a dictionary."
  end.

(** The recognized names, in their declared order, each with the
    sub-objective the spec maps it to. *)
Definition recognized_sub_objectives {E : Collaborators}
    : list (string * (pyobj -> M Q)) :=
  [("asymmetry", asymmetry_objective_function);
   ("tightness", tightness_objective_function);
   ("fold_wavelength", wavelength_objective_function);
   ("axial_traces", axial_trace_objective_function);
   ("hinge_angle", hinge_angle_objective_function);
   ("axis_wavelength", axis_wavelength_objective_function)].

(** The sub-objectives of the names present in the spec, each computed on
    its own from the world [w]. *)
Definition individually_computed {E : Collaborators} (w : world)
    (theta : pyobj) : list (result Q) :=
  map (fun kf => outcome (snd kf theta) w)
      (filter (fun kf => dict_contains (fst kf) (constraints (this w)))
              recognized_sub_objectives).

(** The collaborators with another intercept extractor. *)
Definition with_intercepts (E : Collaborators)
    (f : list Q -> list Q -> list Q) : Collaborators :=
  {| gaussian_log_likelihood := @gaussian_log_likelihood E;
     fourier_series_x_intercepts := f;
     fourier_series := @fourier_series E;
     calculate_tightness := @calculate_tightness E;
     calculate_asymmetry := @calculate_asymmetry E |}.

(** A freshly constructed aggregator, nothing extracted yet. *)
Definition fresh {E : Collaborators} (xs : list Q) (cs : pydict pyobj) : world :=
  {| this := __init__ xs cs; extractions := [] |}.

(** Every field but [constraint_function_map] agrees. *)
Definition same_but_function_map (g g' : GeologicalKnowledge) : Prop :=
  x g' = x g /\ constraints g' = constraints g /\
  constraint_names g' = constraint_names g /\
  intercept_function g' = intercept_function g /\
  splot_function g' = splot_function g.

(** ** Concrete data for the examples *)

(** A rational stand-in for the collaborators: the quadratic part of the
    Gaussian log-density, two fixed intercepts, constant descriptors. *)
Definition example_collaborators : Collaborators :=
  {| gaussian_log_likelihood :=
       fun v mu sigma => - ((v - mu) * (v - mu)) / (2 * sigma * sigma);
     fourier_series_x_intercepts := fun _ _ => [1; 5];
     fourier_series := fun _ _ => [];
     calculate_tightness := fun _ _ => 45;
     calculate_asymmetry := fun _ _ => 0 |}.

Definition example_scipy : Scipy :=
  {| scipy_differential_evolution := fun _ _ =>
       inr {| opt_x := [3; -2]; opt_fun := 0; opt_success := true;
              opt_nit := 1%nat; opt_nfev := 1%nat |};
     scipy_minimize := fun _ _ =>
       inr {| opt_x := [1]; opt_fun := 1; opt_success := true;
              opt_nit := 1%nat; opt_nfev := 1%nat |} |}.

Definition example_record (lb ub mu sigma w : Q) : pyobj :=
  PyDict [("lb", lb); ("ub", ub); ("mu", mu); ("sigma", sigma); ("w", w)].

Definition example_target (mu sigma w : Q) : pyobj :=
  PyDict [("mu", mu); ("sigma", sigma); ("w", w)].

Definition example_theta : pyobj := NdArray [0; 1; 1; 500].

(** Two standard records under recognized names. *)
Definition example_bounded_spec : pydict pyobj :=
  [("tightness", example_record 40 50 45 5 1);
   ("asymmetry", example_record 0 1 0 1 1)].



(** A record without bounds. *)
Definition example_unbounded_spec : pydict pyobj :=
  [("tightness", example_target 45 5 1)].

(** A bounded record followed by an entry that is not a mapping. *)
Definition example_float_spec : pydict pyobj :=
  [("tightness", example_record 40 50 45 5 1); ("asymmetry", PyFloat 3)].

Definition example_soft_spec : pydict pyobj :=
  [("tightness", example_target 45 5 1);
   ("axial_traces", example_target 0 1 1)].


Definition example_hinge_spec : pydict pyobj :=
  [("tightness", example_target 45 5 1);
   ("hinge_angle", example_target 45 5 1)].

(** Collaborators whose fitted curve never crosses zero. *)
Definition example_no_intercepts : Collaborators :=
  with_intercepts example_collaborators (fun _ _ => []).

(** ** Notions used to state the frame properties *)

(** Two worlds agree on what the sub-objectives read. *)
Definition same_inputs (w w' : world) : Prop :=
  x (this w) = x (this w') /\
  constraints (this w) = constraints (this w') /\
  intercept_function (this w) = intercept_function (this w').

(** A computation that leaves the instance alone and whose outcome depends
    on the inputs only (it may log extractions). *)
Definition reads_only {A} (c : M A) : Prop :=
  forall w,
    this (world_after c w) = this w /\
    forall w', same_inputs w w' -> outcome c w = outcome c w'.

(** Logging one more extraction. *)
Definition logged (w : world) (e : extraction) : world :=
  {| this := this w; extractions := extractions w ++ [e] |}.

(** Every sub-objective and the total objective stop with [e] in the world
    they started from. *)
Definition all_raise {E : Collaborators} (w : world) (theta : pyobj)
    (e : exn) : Prop :=
  (forall f : method, run (call_method f theta) w = (w, inl e)) /\
  run (__call__ theta) w = (w, inl e).

(** The outcome of the function that the map holds for [key], called in the
    world [w]. *)
Definition dispatched_outcome {E : Collaborators} (theta : pyobj) (w : world)
    (key : string) : result Q :=
  match dict_get key the_constraint_function_map with
  | Some f => outcome (call_method f theta) w
  | None => inl (KeyError key)
  end.

(** ** Notions used for the further properties *)

(** A target record: a mapping with the three fields every sub-objective
    reads. *)
Definition target_shaped (info : pyobj) : bool :=
  match info with
  | PyDict d =>
      dict_contains "mu" d && dict_contains "sigma" d && dict_contains "w" d
  | _ => false
  end.

(** The first of the fields read by the axial-trace loop that [d] lacks. *)
Definition first_missing_target_field (d : pydict Q) : string :=
  if negb (dict_contains "mu" d) then "mu"
  else if negb (dict_contains "sigma" d) then "sigma"
  else "w".

(** The key of the spec whose record a sub-objective reads. *)
Definition constraint_name_of (f : method) : string :=
  match f with
  | asymmetry_objective => "asymmetry"
  | tightness_objective => "tightness"
  | wavelength_objective => "fold_wavelength"
  | axis_wavelength_objective => "axis_wavelength"
  | axial_trace_objective => "axial_traces"
  | hinge_angle_objective => "hinge_angle"
  end.

(** The sub-objectives that read the one record under their own name (the
    axial-trace one scans the whole spec instead). *)
Definition reads_one_record (f : method) : bool :=
  match f with
  | axial_trace_objective => false
  | _ => true
  end.

(** Two entries agree on what the restricted-mode construction reads: the
    name and, for mappings, the four fields [lb], [ub], [mu], [sigma]. *)
Definition same_bounds (item item' : string * pyobj) : Prop :=
  fst item = fst item' /\
  match snd item, snd item' with
  | PyDict d, PyDict d' =>
      dict_get "lb" d = dict_get "lb" d' /\
      dict_get "ub" d = dict_get "ub" d' /\
      dict_get "mu" d = dict_get "mu" d' /\
      dict_get "sigma" d = dict_get "sigma" d'
  | PyDict _, _ | _, PyDict _ => False
  | _, _ => True
  end.

(** The keywords [Solver.constrained_trust_region] fixes in its call of
    scipy's [minimize]. *)
Definition trust_region_keywords (constraints_arg : value) : pydict value :=
  [("method", VStr "trust-constr"); ("jac", VStr "2-point");
   ("constraints", constraints_arg)].

(** A spec whose keys are all outside the recognized names. *)
Definition example_suffixed_spec : pydict pyobj :=
  [("axial_trace_1", example_target 1 1 1);
   ("axial_trace_2", example_target 5 1 1);
   ("curvature", example_target 0 1 1)].

(** The structure the constructor's docstring shows for an axial trace: no
    weight. *)
Definition example_docstring_spec : pydict pyobj :=
  [("tightness", example_target 45 5 1);
   ("axial_traces", PyDict [("mu", 0); ("sigma", 1)])].

(** Equal targets for the two wavelengths. *)
Definition example_wavelength_spec : pydict pyobj :=
  [("fold_wavelength", example_target 500 50 2);
   ("axis_wavelength", example_target 500 50 2)].

(** A record under a name the function map does not hold. *)
Definition example_unknown_name_spec : pydict pyobj :=
  [("tightness", example_record 40 50 45 5 1);
   ("curvature", example_record 0 1 0 1 1)].

(** The bounded spec with other weights and an extra field. *)
Definition example_bounded_spec_reweighted : pydict pyobj :=
  [("tightness",
    PyDict [("note", 7); ("lb", 40); ("ub", 50); ("mu", 45); ("sigma", 5);
            ("w", 10)]);
   ("asymmetry", example_record 0 1 0 1 0)].

(** ** The monad *)

Section MonadFacts.

Lemma reads_only_ret {A} (a : A) : reads_only (ret a).
Proof. intros w. split; [reflexivity|intros w' _; reflexivity]. Qed.

Lemma reads_only_raise {A} (e : exn) : reads_only (@raise A e).
Proof. intros w. split; [reflexivity|intros w' _; reflexivity]. Qed.

Lemma reads_only_lift {A} (r : result A) : reads_only (lift r).
Proof. intros w. split; [reflexivity|intros w' _; reflexivity]. Qed.

Lemma reads_only_get_x : reads_only get_x.
Proof.
  intros w. split; [reflexivity|].
  intros w' (Hx & _ & _). unfold outcome, get_x. simpl. now rewrite Hx.
Qed.

Lemma reads_only_get_constraints : reads_only get_constraints.
Proof.
  intros w. split; [reflexivity|].
  intros w' (_ & Hc & _). unfold outcome, get_constraints. simpl.
  now rewrite Hc.
Qed.

Lemma reads_only_get_intercept_function : reads_only get_intercept_function.
Proof.
  intros w. split; [reflexivity|].
  intros w' (_ & _ & Hf). unfold outcome, get_intercept_function. simpl.
  now rewrite Hf.
Qed.

Lemma reads_only_record_extraction (e : extraction) :
  reads_only (record_extraction e).
Proof. intros w. split; [reflexivity|intros w' _; reflexivity]. Qed.

Lemma reads_only_bind {A B} (c : M A) (k : A -> M B) :
  reads_only c -> (forall a, reads_only (k a)) -> reads_only (bind c k).
Proof.
  intros Hc Hk w. destruct (Hc w) as [Hthis Hout].
  unfold world_after, outcome, bind in *.
  destruct (c w) as [w1 [e|a]] eqn:Hcw; simpl in *.
  - split; [exact Hthis|]. intros w' Hsame.
    specialize (Hout w' Hsame).
    destruct (c w') as [w1' [e'|a']]; simpl in *;
      [inversion Hout; reflexivity|discriminate].
  - destruct (Hk a w1) as [Hthis1 Hout1].
    unfold world_after, outcome in Hthis1, Hout1. split; [congruence|].
    intros w' Hsame. specialize (Hout w' Hsame).
    destruct (Hc w') as [Hthis' _]. unfold world_after in Hthis'.
    destruct (c w') as [w1' [e'|a']] eqn:Hcw'; simpl in *; [discriminate|].
    inversion Hout; subst a'. apply Hout1.
    unfold same_inputs in *. rewrite Hthis, Hthis'. exact Hsame.
Qed.

Lemma reads_only_if {A} (b : bool) (c1 c2 : M A) :
  reads_only c1 -> reads_only c2 -> reads_only (if b then c1 else c2).
Proof. destruct b; auto. Qed.

End MonadFacts.

Create HintDb reads.
#[local] Hint Resolve reads_only_ret reads_only_raise reads_only_lift
  reads_only_get_x reads_only_get_constraints
  reads_only_get_intercept_function reads_only_record_extraction
  reads_only_if : reads.

Ltac reads_only_tac :=
  repeat first
    [ apply reads_only_bind; [|intros ?]
    | solve [auto with reads]
    | apply reads_only_if
    | progress cbv zeta ].

(** ** Dictionaries *)

Section DictFacts.
Context {V : Type}.

Lemma dict_get_in (key : string) (d : pydict V) (v : V) :
  dict_get key d = Some v -> In (key, v) d.
Proof.
  induction d as [|[k u] d IH]; simpl; [discriminate|].
  destruct (String.eqb_spec key k) as [->|_].
  - intros H. inversion H. now left.
  - intros H. right. now apply IH.
Qed.




End DictFacts.

(** ** The sub-objectives *)

Ltac unfold_methods :=
  unfold call_method, asymmetry_objective_function,
    tightness_objective_function, hinge_angle_objective_function,
    wavelength_objective_function, axis_wavelength_objective_function,
    axial_trace_objective_function, self_calculate_tightness,
    self_calculate_asymmetry, constraint_field,
    self_check_fourier_parameters.

Section SubObjectives.
Context {E : Collaborators}.

Lemma call_method_reads_only (f : method) (theta : pyobj) :
  reads_only (call_method f theta).
Proof. destruct f; unfold_methods; reads_only_tac. Qed.

Lemma call_method_this (f : method) (theta : pyobj) (w : world) :
  this (world_after (call_method f theta) w) = this w.
Proof. apply call_method_reads_only. Qed.

Lemma call_method_outcome (f : method) (theta : pyobj) (w w' : world) :
  same_inputs w w' ->
  outcome (call_method f theta) w = outcome (call_method f theta) w'.
Proof. apply call_method_reads_only. Qed.

(** C6. A [theta] that is not a numpy array makes each of the six
    sub-objectives and the total objective raise a type error, and a numpy
    array of fewer than 4 elements makes each raise a value error; the
    exception reaches the caller and the world is the one the call started
    from, so no extraction has been logged. *)
Theorem invalid_theta_raises (w : world) (theta : pyobj) :
  (is_ndarray theta = false ->
   all_raise w theta (TypeError "`theta` should be a numpy array.")) /\
  (forall a, theta = NdArray a -> (List.length a < 4)%nat ->
   all_raise w theta
     (ValueError "`theta` should have at least 4 Fourier series parameters.")).
Proof.
  split.
  - intros Harr. split; [intros f|].
    + destruct theta; try discriminate; destruct f; reflexivity.
    + destruct theta; try discriminate; reflexivity.
  - intros a -> Hlen. apply Nat.ltb_lt in Hlen.
    split; [intros f|].
    + destruct f; unfold_methods; unfold run, bind, lift; simpl;
        rewrite Hlen; reflexivity.
    + unfold __call__, self_check_fourier_parameters, run, bind, lift; simpl.
      rewrite Hlen. reflexivity.
Qed.

(** C5. With a valid [theta] and an empty intercept set the axial-trace
    sub-objective returns 999: whatever the constraint spec of the instance
    holds, the only effect is the logged intercept extraction. *)
Theorem no_intercepts_returns_999 (w : world) (a : list Q) :
  (4 <= List.length a)%nat ->
  intercept_function (this w) (x (this w)) a = [] ->
  run (axial_trace_objective_function (NdArray a)) w =
  (logged w (ExtractIntercepts (x (this w)) a), inr 999).
Proof.
  intros Hlen Hempty. apply Nat.ltb_ge in Hlen.
  unfold_methods.
  unfold run, bind, lift, get_intercept_function, get_x, record_extraction,
    ret; simpl.
  rewrite Hlen. simpl. rewrite Hempty. reflexivity.
Qed.

(** C8. The hinge-angle and the tightness sub-objectives derive their
    feature by the same call of [calculate_tightness]: when their two
    records hold the same [mu], [sigma] and [w], they leave the same world
    and give the same outcome, which for a valid [theta] is the weighted
    negative log-likelihood of the tightness. *)
Theorem hinge_angle_is_tightness (w : world) (theta : pyobj)
    (hinge tight : pydict Q) (mu sigma wt : Q) :
  dict_get "hinge_angle" (constraints (this w)) = Some (PyDict hinge) ->
  dict_get "tightness" (constraints (this w)) = Some (PyDict tight) ->
  dict_get "mu" hinge = Some mu -> dict_get "mu" tight = Some mu ->
  dict_get "sigma" hinge = Some sigma -> dict_get "sigma" tight = Some sigma ->
  dict_get "w" hinge = Some wt -> dict_get "w" tight = Some wt ->
  run (hinge_angle_objective_function theta) w =
  run (tightness_objective_function theta) w /\
  (forall a, theta = NdArray a -> (4 <= List.length a)%nat ->
     run (hinge_angle_objective_function theta) w =
     (logged w (ExtractTightness a),
      inr (- gaussian_log_likelihood (calculate_tightness (x (this w)) a)
               mu sigma * wt))).
Proof.
  intros Hh Ht Hmu1 Hmu2 Hs1 Hs2 Hw1 Hw2.
  assert (Hrun : forall c : M Q,
    (c = hinge_angle_objective_function theta \/
     c = tightness_objective_function theta) ->
    run c w =
    match check_fourier_parameters theta, ndarray_of theta with
    | inl e, _ => (w, inl e)
    | inr _, inl e => (w, inl e)
    | inr _, inr a =>
        (logged w (ExtractTightness a),
         inr (- gaussian_log_likelihood (calculate_tightness (x (this w)) a)
                  mu sigma * wt))
    end).
  { intros c [-> | ->]; unfold_methods;
      unfold run, bind, lift, get_constraints, get_x, record_extraction, ret,
        dict_item, subscript; simpl;
      destruct (check_fourier_parameters theta) as [e|[]]; try reflexivity;
      simpl; rewrite ?Hh, ?Ht; simpl;
      unfold dict_item; rewrite ?Hmu1, ?Hmu2, ?Hs1, ?Hs2, ?Hw1, ?Hw2; simpl;
      destruct (ndarray_of theta) as [e|a]; reflexivity. }
  split.
  - rewrite (Hrun _ (or_introl eq_refl)), (Hrun _ (or_intror eq_refl)).
    reflexivity.
  - intros a -> Hlen. rewrite (Hrun _ (or_introl eq_refl)).
    apply Nat.ltb_ge in Hlen. simpl. rewrite Hlen. reflexivity.
Qed.

End SubObjectives.

(** ** The intercept an axial-trace entry selects *)

Section Selection.

(** C1. With the two intercepts 1 and 5 and one axial-trace entry of mean 0,
    the nearest intercept is 1, but the sub-objective scores the intercept
    5: [np.argmin] is taken over the signed differences [mu - intercepts],
    not over their absolute values. *)
Theorem axial_trace_scores_largest_intercept (E : Collaborators) (xs : list Q) :
  let E' := with_intercepts E (fun _ _ => [1; 5]) in
  outcome (@axial_trace_objective_function E' example_theta)
          (@fresh E' xs [("axial_traces", example_target 0 1 1)]) =
  inr (0 + - @gaussian_log_likelihood E 5 0 1 * 1) /\
  nearest_intercept 0 [1; 5] = 1 /\
  selected_intercept 0 [1; 5] = 5.
Proof.
  repeat split.
Qed.

End Selection.

(** ** The total objective *)

Section TotalObjective.
Context {E : Collaborators}.

Lemma constraint_function_run (key : string) (w : world) :
  run (constraint_function key) w =
  (w, match constraint_function_map (this w) with
      | Some d => dict_item d key
      | None => inl (TypeError "'NoneType' object is not subscriptable")
      end).
Proof.
  unfold run, constraint_function, bind, get_constraint_function_map.
  destruct (constraint_function_map (this w)); reflexivity.
Qed.

Lemma sum_constraints_unfold (key : string) (rest : list string)
    (theta : pyobj) (total : Q) (w : world) :
  sum_constraints (key :: rest) theta total w =
  if dict_contains key (constraints (this w)) then
    match constraint_function_map (this w) with
    | Some d =>
        match dict_get key d with
        | Some f =>
            match call_method f theta w with
            | (w1, inl e) => (w1, inl e)
            | (w1, inr v) => sum_constraints rest theta (total + v) w1
            end
        | None => (w, inl (KeyError key))
        end
    | None => (w, inl (TypeError "'NoneType' object is not subscriptable"))
    end
  else sum_constraints rest theta total w.
Proof.
  cbn [sum_constraints]. unfold bind at 1. unfold get_constraints.
  destruct (dict_contains key (constraints (this w))); [|reflexivity].
  unfold bind at 1.
  pose proof (constraint_function_run key w) as Hrun. unfold run in Hrun.
  rewrite Hrun. unfold dict_item.
  destruct (constraint_function_map (this w)) as [d|]; [|reflexivity].
  destruct (dict_get key d); reflexivity.
Qed.

Lemma dispatched_outcome_same (theta : pyobj) (w w' : world) (key : string) :
  same_inputs w w' ->
  dispatched_outcome theta w key = dispatched_outcome theta w' key.
Proof.
  intros Hsame. unfold dispatched_outcome.
  destruct (dict_get key the_constraint_function_map); [|reflexivity].
  now apply call_method_outcome.
Qed.

(** The loop leaves the instance alone and sums, in the order of [names],
    what the mapped functions return for the names present in the spec. *)
Lemma sum_constraints_spec (theta : pyobj) (names : list string) :
  forall (total : Q) (w : world),
    constraint_function_map (this w) = Some the_constraint_function_map ->
    this (world_after (sum_constraints names theta total) w) = this w /\
    outcome (sum_constraints names theta total) w =
    sum_results
      (map (dispatched_outcome theta w)
           (filter (fun key => dict_contains key (constraints (this w))) names))
      total.
Proof.
  induction names as [|key rest IH]; intros total w Hmap.
  - split; reflexivity.
  - unfold world_after, outcome. rewrite sum_constraints_unfold, Hmap.
    cbn [filter].
    destruct (dict_contains key (constraints (this w))); [|now apply IH].
    cbn [map sum_results]. unfold dispatched_outcome at 1.
    destruct (dict_get key the_constraint_function_map) as [f|];
      [|split; reflexivity].
    pose proof (call_method_this f theta w) as Hthis.
    unfold world_after in Hthis. unfold outcome at 1.
    destruct (call_method f theta w) as [w1 [e|v]] eqn:Hcm; simpl in Hthis.
    + split; [exact Hthis|reflexivity].
    + assert (Hmap1 : constraint_function_map (this w1) =
                      Some the_constraint_function_map) by congruence.
      destruct (IH (total + v) w1 Hmap1) as [IHthis IHout].
      unfold world_after, outcome in IHthis, IHout.
      split; [congruence|].
      rewrite IHout. cbn [snd bindR]. rewrite Hthis.
      f_equal. apply map_ext. intros k.
      apply dispatched_outcome_same. unfold same_inputs.
      rewrite Hthis. auto.
Qed.

(** The world in which [__call__] runs its loop. *)
Lemma call_unfold (a : list Q) (w : world) :
  (4 <= List.length a)%nat ->
  __call__ (NdArray a) w =
  sum_constraints (constraint_names (this w)) (NdArray a) 0
    (world_after setup_constraint_functions w).
Proof.
  intros Hlen. apply Nat.ltb_ge in Hlen.
  unfold __call__, self_check_fourier_parameters, bind, lift,
    get_constraint_names. simpl. rewrite Hlen. reflexivity.
Qed.


Lemma call_is_sum_of_individually_computed (xs a : list Q)
    (cs : pydict pyobj) :
  (4 <= List.length a)%nat ->
  outcome (__call__ (NdArray a)) (fresh xs cs) =
  sum_results (individually_computed (fresh xs cs) (NdArray a)) 0.
Proof.
  intros Hlen. unfold outcome at 1. rewrite (call_unfold a _ Hlen).
  set (w1 := world_after setup_constraint_functions (fresh xs cs)).
  destruct (sum_constraints_spec (NdArray a)
              (constraint_names (this (fresh xs cs))) 0 w1 eq_refl)
    as [_ Hout].
  unfold outcome in Hout at 1. rewrite Hout. f_equal.
  rewrite (map_ext (dispatched_outcome (NdArray a) w1)
                   (dispatched_outcome (NdArray a) (fresh xs cs)))
    by (intros k; apply dispatched_outcome_same; repeat split).
  unfold individually_computed, recognized_sub_objectives.
  change (constraints (this w1)) with cs.
  change (constraints (this (fresh xs cs))) with cs.
  change (constraint_names (this (fresh xs cs)))
    with ["asymmetry"; "tightness"; "fold_wavelength"; "axial_traces";
          "hinge_angle"; "axis_wavelength"].
  cbn [filter map fst snd].
  destruct (dict_contains "asymmetry" cs), (dict_contains "tightness" cs),
    (dict_contains "fold_wavelength" cs), (dict_contains "axial_traces" cs),
    (dict_contains "hinge_angle" cs), (dict_contains "axis_wavelength" cs);
    reflexivity.
Qed.


End TotalObjective.

(** ** Restricted-mode constraints *)

Section RestrictedConstraints.
Context {E : Collaborators}.

Lemma linspace_length (start stop : Q) (num : nat) :
  List.length (linspace start stop num) = num.
Proof.
  unfold linspace. destruct num as [|[|div]]; try reflexivity.
  rewrite length_app, length_map, length_seq. simpl. lia.
Qed.


Lemma fold_min_spec (l : list Q) :
  forall v, In (fold_left Qmin l v) (v :: l) /\
            forall u, In u (v :: l) -> fold_left Qmin l v <= u.
Proof.
  induction l as [|a l IH]; intros v; simpl.
  - split; [now left|]. intros u [<-|[]]. apply Qle_refl.
  - destruct (IH (Qmin v a)) as [Hin Hle]. split.
    + destruct Hin as [Heq|Hin]; [|right; now right].
      rewrite <- Heq. unfold Qmin, GenericMinMax.gmin.
      destruct (v ?= a); auto.
    + intros u [<-|[<-|Hu]].
      * eapply Qle_trans; [apply Hle; now left|apply Q.le_min_l].
      * eapply Qle_trans; [apply Hle; now left|apply Q.le_min_r].
      * apply Hle. now right.
Qed.

Lemma fold_max_spec (l : list Q) :
  forall v, In (fold_left Qmax l v) (v :: l) /\
            forall u, In u (v :: l) -> u <= fold_left Qmax l v.
Proof.
  induction l as [|a l IH]; intros v; simpl.
  - split; [now left|]. intros u [<-|[]]. apply Qle_refl.
  - destruct (IH (Qmax v a)) as [Hin Hle]. split.
    + destruct Hin as [Heq|Hin]; [|right; now right].
      rewrite <- Heq. unfold Qmax, GenericMinMax.gmax.
      destruct (v ?= a); auto.
    + intros u [<-|[<-|Hu]].
      * eapply Qle_trans; [apply Q.le_max_l|apply Hle; now left].
      * eapply Qle_trans; [apply Q.le_max_r|apply Hle; now left].
      * apply Hle. now right.
Qed.

Lemma build_constraints_unfold (k : string) (d : pydict Q)
    (rest : pydict pyobj) (acc : list NonlinearConstraint) (w : world) :
  build_constraints ((k, PyDict d) :: rest) acc w =
  match dict_item d "lb" with inl e => (w, inl e) | inr lb =>
  match dict_item d "ub" with inl e => (w, inl e) | inr ub =>
  match dict_item d "mu" with inl e => (w, inl e) | inr mu =>
  match dict_item d "sigma" with inl e => (w, inl e) | inr sigma =>
  match constraint_function_map (this w) with
  | None => (w, inl (TypeError "'NoneType' object is not subscriptable"))
  | Some m =>
  match dict_item m k with inl e => (w, inl e) | inr f =>
  match array_min (likelihood_profile lb ub mu sigma) with
  | inl e => (w, inl e) | inr lo =>
  match array_max (likelihood_profile lb ub mu sigma) with
  | inl e => (w, inl e) | inr hi =>
      build_constraints rest
        (acc ++ [{| nlc_fun := f; nlc_lb := lo; nlc_ub := hi;
                    nlc_jac := "2-point"; nlc_hess := BFGS |}]) w
  end end end end end end end end.
Proof.
  cbn [build_constraints]. unfold subscript.
  unfold bind at 1. unfold lift at 1.
  destruct (dict_item d "lb") as [e|lb]; [reflexivity|].
  unfold bind at 1. unfold lift at 1.
  destruct (dict_item d "ub") as [e|ub]; [reflexivity|].
  unfold bind at 1. unfold lift at 1.
  destruct (dict_item d "mu") as [e|mu]; [reflexivity|].
  unfold bind at 1. unfold lift at 1.
  destruct (dict_item d "sigma") as [e|sigma]; [reflexivity|].
  cbv zeta. unfold bind at 1.
  pose proof (constraint_function_run k w) as Hrun. unfold run in Hrun.
  rewrite Hrun.
  destruct (constraint_function_map (this w)) as [m|]; [|reflexivity].
  destruct (dict_item m k) as [e|f]; [reflexivity|].
  fold (likelihood_profile lb ub mu sigma).
  unfold bind at 1. unfold lift at 1.
  destruct (array_min (likelihood_profile lb ub mu sigma)) as [e|lo];
    [reflexivity|].
  unfold bind at 1. unfold lift at 1.
  destruct (array_max (likelihood_profile lb ub mu sigma)) as [e|hi];
    reflexivity.
Qed.

(** The construction loop never touches the world. *)
Lemma build_constraints_world (items : pydict pyobj) :
  forall acc w, world_after (build_constraints items acc) w = w.
Proof.
  induction items as [|[k info] items IH]; intros acc w; [reflexivity|].
  unfold world_after in *.
  destruct info; try reflexivity.
  rewrite build_constraints_unfold.
  repeat match goal with
  | |- fst (match ?r with _ => _ end) = _ => destruct r; try reflexivity
  end.
  apply IH.
Qed.

Lemma dict_contains_get {V} (key : string) (d : pydict V) :
  dict_contains key d = true -> exists v, dict_get key d = Some v.
Proof.
  unfold dict_contains. destruct (dict_get key d) as [v|]; [|discriminate].
  intros _. now exists v.
Qed.

(** One step of the loop on a constructible entry. *)
Lemma build_constraints_step (item : string * pyobj) (w : world) :
  constructible item = true ->
  constraint_function_map (this w) = Some the_constraint_function_map ->
  exists c, describes item c /\
    forall rest acc,
      build_constraints (item :: rest) acc w =
      build_constraints rest (acc ++ [c]) w.
Proof.
  destruct item as [k info]. unfold constructible, record_shaped.
  cbn [fst snd]. intros Hc Hmap. destruct info as [| | | |d]; try discriminate.
  apply andb_prop in Hc. destruct Hc as [Hc Hk].
  apply andb_prop in Hc. destruct Hc as [Hc Hsigma].
  apply andb_prop in Hc. destruct Hc as [Hc Hmu].
  apply andb_prop in Hc. destruct Hc as [Hlb Hub].
  apply dict_contains_get in Hk, Hsigma, Hmu, Hlb, Hub.
  destruct Hk as [f Hk], Hsigma as [sigma Hsigma], Hmu as [mu Hmu],
    Hlb as [lb Hlb], Hub as [ub Hub].
  pose proof (linspace_length lb ub 100) as Hlen.
  destruct (likelihood_profile lb ub mu sigma) as [|v vs] eqn:Hprof.
  { unfold likelihood_profile in Hprof.
    apply (f_equal (@List.length Q)) in Hprof.
    rewrite length_map, Hlen in Hprof. discriminate. }
  destruct (fold_min_spec vs v) as [Hmin_in Hmin_le].
  destruct (fold_max_spec vs v) as [Hmax_in Hmax_le].
  exists {| nlc_fun := f; nlc_lb := fold_left Qmin vs v;
            nlc_ub := fold_left Qmax vs v;
            nlc_jac := "2-point"; nlc_hess := BFGS |}.
  split.
  - exists d, lb, ub, mu, sigma.
    cbn [fst snd nlc_fun nlc_lb nlc_ub nlc_jac nlc_hess]. rewrite Hprof.
    repeat split; try assumption.
    eapply Qle_trans; [apply Hmin_le|apply Hmax_le]; now left.
  - intros rest acc. rewrite build_constraints_unfold, Hmap.
    unfold dict_item. rewrite Hlb, Hub, Hmu, Hsigma, Hk.
    cbv beta iota delta [okR raiseR]. rewrite Hprof. reflexivity.
Qed.

(** One step of the loop on an entry that is not constructible. *)
Lemma build_constraints_failure (item : string * pyobj) (w : world) :
  constructible item = false ->
  constraint_function_map (this w) = Some the_constraint_function_map ->
  forall rest acc,
    build_constraints (item :: rest) acc w =
    (w, inl (construction_failure item)).
Proof.
  destruct item as [k info].
  unfold constructible, construction_failure, record_shaped,
    first_missing_field. cbn [fst snd].
  intros Hc Hmap rest acc. destruct info as [| | | |d]; try reflexivity.
  rewrite build_constraints_unfold, Hmap. unfold dict_item, dict_contains in *.
  destruct (dict_get "lb" d); [|reflexivity].
  destruct (dict_get "ub" d); [|reflexivity].
  destruct (dict_get "mu" d); [|reflexivity].
  destruct (dict_get "sigma" d); [|reflexivity].
  cbn [andb negb] in Hc |- *.
  destruct (dict_get k the_constraint_function_map); [discriminate|].
  reflexivity.
Qed.

Lemma build_constraints_all (w : world) (items : pydict pyobj) :
  constraint_function_map (this w) = Some the_constraint_function_map ->
  Forall (fun item => constructible item = true) items ->
  forall acc, exists ds,
    Forall2 describes items ds /\
    build_constraints items acc w = (w, inr (acc ++ ds)).
Proof.
  intros Hmap Hall. induction Hall as [|item items Hitem Hall IH]; intros acc.
  - exists []. split; [constructor|]. simpl. now rewrite app_nil_r.
  - destruct (build_constraints_step item w Hitem Hmap) as (c & Hc & Hstep).
    destruct (IH (acc ++ [c])) as (ds & Hds & Hrun).
    exists (c :: ds). split; [now constructor|].
    rewrite Hstep, Hrun, <- app_assoc. reflexivity.
Qed.

Lemma build_constraints_first_failure (w : world)
    (pre post : pydict pyobj) (bad : string * pyobj) :
  constraint_function_map (this w) = Some the_constraint_function_map ->
  Forall (fun item => constructible item = true) pre ->
  constructible bad = false ->
  forall acc,
    build_constraints (pre ++ bad :: post) acc w =
    (w, inl (construction_failure bad)).
Proof.
  intros Hmap Hpre Hbad. induction Hpre as [|item pre Hitem Hpre IH];
    intros acc; cbn [app].
  - now apply build_constraints_failure.
  - destruct (build_constraints_step item w Hitem Hmap) as (c & _ & Hstep).
    rewrite Hstep. apply IH.
Qed.

Lemma first_failure_split (items : pydict pyobj) :
  Forall (fun item => constructible item = true) items \/
  exists pre bad post,
    items = pre ++ bad :: post /\
    Forall (fun item => constructible item = true) pre /\
    constructible bad = false.
Proof.
  induction items as [|item items IH]; [left; constructor|].
  destruct (constructible item) eqn:Hitem.
  - destruct IH as [Hall|(pre & bad & post & -> & Hpre & Hbad)].
    + left. now constructor.
    + right. exists (item :: pre), bad, post.
      repeat split; [now constructor|exact Hbad].
  - right. exists [], item, items. repeat split; [constructor|exact Hitem].
Qed.

Lemma prepare_unfold (w : world) :
  prepare_and_setup_constraints w =
  build_constraints (constraints (this w)) []
    (world_after setup_constraint_functions w).
Proof. reflexivity. Qed.


(** C7, as the code has it. A list that the construction returns describes
    every entry of the spec, so nothing partial is ever returned; and when
    the first entry that is not constructible is not record-shaped, the
    call raises as soon as the loop reaches it: a type error when the entry
    is not a mapping, a key error naming the first missing field when it is
    a mapping. *)
Theorem restricted_constraints_all_or_nothing (w : world) :
  (forall ds,
     outcome prepare_and_setup_constraints w = inr ds ->
     Forall2 describes (constraints (this w)) ds) /\
  (forall pre bad post,
     constraints (this w) = pre ++ bad :: post ->
     Forall (fun item => constructible item = true) pre ->
     record_shaped (snd bad) = false ->
     run prepare_and_setup_constraints w =
     (world_after setup_constraint_functions w,
      inl match snd bad with
          | PyDict d => KeyError (first_missing_field d)
          | _ => TypeError "`constraint_info` should be a dictionary."
          end)).
Proof.
  set (w1 := world_after setup_constraint_functions w).
  split.
  - intros ds Hout. unfold outcome in Hout. rewrite prepare_unfold in Hout.
    fold w1 in Hout.
    destruct (first_failure_split (constraints (this w)))
      as [Hall|(pre & bad & post & Hcs & Hpre & Hbad)].
    + destruct (build_constraints_all w1 _ eq_refl Hall [])
        as (ds' & Hds & Hrun).
      rewrite Hrun in Hout. simpl in Hout. inversion Hout; subst. exact Hds.
    + rewrite Hcs in Hout.
      rewrite (build_constraints_first_failure w1 pre post bad eq_refl Hpre Hbad)
        in Hout.
      discriminate.
  - intros pre bad post Hcs Hpre Hshape. unfold run.
    rewrite prepare_unfold. fold w1. rewrite Hcs.
    assert (Hbad : constructible bad = false).
    { unfold constructible. now rewrite Hshape. }
    rewrite (build_constraints_first_failure w1 pre post bad eq_refl Hpre Hbad).
    unfold construction_failure.
    destruct (snd bad); try reflexivity. now rewrite Hshape.
Qed.

(** C10. Neither the total objective nor the restricted-mode construction
    writes to a field other than [constraint_function_map]: the frame
    coordinates, the spec, the name list and the two function fields are
    the ones the call started with.  The construction always leaves the map
    at the fixed six entries; the total objective does so whenever [theta]
    passes validation and leaves the map as it was otherwise.  Evaluating
    the total objective again on the same instance with the same [theta]
    gives the same outcome. *)
Theorem calls_only_rebuild_function_map (w : world) (theta : pyobj) :
  let w1 := world_after (__call__ theta) w in
  let wp := world_after prepare_and_setup_constraints w in
  same_but_function_map (this w) (this w1) /\
  constraint_function_map (this w1) =
    match check_fourier_parameters theta with
    | inr _ => Some the_constraint_function_map
    | inl _ => constraint_function_map (this w)
    end /\
  outcome (__call__ theta) w1 = outcome (__call__ theta) w /\
  same_but_function_map (this w) (this wp) /\
  constraint_function_map (this wp) = Some the_constraint_function_map /\
  extractions wp = extractions w.
Proof.
  intros w1 wp.
  assert (Hprep : wp = world_after setup_constraint_functions w).
  { unfold wp, world_after at 1. rewrite prepare_unfold.
    apply build_constraints_world. }
  assert (Hcall : forall w0,
    __call__ theta w0 =
    match check_fourier_parameters theta with
    | inl e => (w0, inl e)
    | inr _ =>
        sum_constraints (constraint_names (this w0)) theta 0
          (world_after setup_constraint_functions w0)
    end).
  { intros w0. unfold __call__, self_check_fourier_parameters, bind, lift.
    destruct (check_fourier_parameters theta); reflexivity. }
  assert (Hcalls :
    same_but_function_map (this w) (this w1) /\
    constraint_function_map (this w1) =
      match check_fourier_parameters theta with
      | inr _ => Some the_constraint_function_map
      | inl _ => constraint_function_map (this w)
      end /\
    outcome (__call__ theta) w1 = outcome (__call__ theta) w).
  { unfold outcome. rewrite (Hcall w1), (Hcall w).
    unfold w1, world_after at 1 2 3. rewrite (Hcall w).
    destruct (check_fourier_parameters theta) as [e|[]].
    - repeat split.
    - set (ws := world_after setup_constraint_functions w).
      destruct (sum_constraints_spec theta (constraint_names (this w)) 0 ws
                  eq_refl) as [Hthis Hout].
      unfold world_after in Hthis. unfold outcome in Hout.
      set (w2 := fst (sum_constraints (constraint_names (this w)) theta 0 ws))
        in *.
      assert (Hnames : constraint_names (this w2) = constraint_names (this w))
        by (rewrite Hthis; reflexivity).
      assert (Hw : world_after (__call__ theta) w = w2)
        by (unfold world_after; rewrite Hcall; reflexivity).
      rewrite ?Hw, Hnames.
      set (ws2 := world_after setup_constraint_functions w2).
      destruct (sum_constraints_spec theta (constraint_names (this w)) 0 ws2
                  eq_refl) as [_ Hout2].
      unfold outcome in Hout2.
      assert (Hsame : same_inputs ws2 ws).
      { unfold same_inputs, ws2, world_after, setup_constraint_functions,
          set_constraint_function_map. cbn [fst this x constraints
          intercept_function]. rewrite Hthis. repeat split. }
      rewrite Hthis. repeat split.
      rewrite Hout2, Hout. pose proof Hsame as (Hx & Hc & Hf).
      rewrite Hc. f_equal. apply map_ext. intros k.
      apply dispatched_outcome_same. exact Hsame. }
  destruct Hcalls as (H1 & H2 & H3).
  rewrite Hprep.
  split; [exact H1|]. split; [exact H2|]. split; [exact H3|].
  repeat split.
Qed.

End RestrictedConstraints.

(** ** Further properties of the sub-objectives *)

Section SubObjectiveEdges.
Context {E : Collaborators}.

(** X5. Called for a name that the spec does not hold, a record-reading
    sub-objective raises a key error for that name, and for a name whose
    value is a float it raises a type error; in both cases nothing has been
    extracted and the world is unchanged. *)
Theorem sub_objective_without_record (f : method) (w : world) (a : list Q) :
  reads_one_record f = true ->
  (4 <= List.length a)%nat ->
  (dict_get (constraint_name_of f) (constraints (this w)) = None ->
   run (call_method f (NdArray a)) w =
   (w, inl (KeyError (constraint_name_of f)))) /\
  (forall q,
     dict_get (constraint_name_of f) (constraints (this w)) = Some (PyFloat q) ->
     run (call_method f (NdArray a)) w =
     (w, inl (TypeError "'float' object is not subscriptable"))).
Proof.
  intros Hf Hlen. apply Nat.ltb_ge in Hlen.
  split; [intros Hget|intros q Hget];
    destruct f; try discriminate; unfold_methods;
    unfold run, bind, lift, get_constraints, dict_item; simpl in *;
    rewrite Hlen, Hget; reflexivity.
Qed.

(** X6. The fold-wavelength and the axis-wavelength sub-objectives both
    score [theta[3]]: with the same [mu], [sigma] and [w] in their two
    records they return the same weighted negative log-likelihood, and
    neither calls a feature extractor. *)
Theorem wavelength_objectives_score_theta3 (w : world) (a : list Q) (t3 : Q)
    (fold axis : pydict Q) (mu sigma wt : Q) :
  nth_error a 3 = Some t3 ->
  dict_get "fold_wavelength" (constraints (this w)) = Some (PyDict fold) ->
  dict_get "axis_wavelength" (constraints (this w)) = Some (PyDict axis) ->
  dict_get "mu" fold = Some mu -> dict_get "mu" axis = Some mu ->
  dict_get "sigma" fold = Some sigma -> dict_get "sigma" axis = Some sigma ->
  dict_get "w" fold = Some wt -> dict_get "w" axis = Some wt ->
  run (wavelength_objective_function (NdArray a)) w =
  (w, inr (- gaussian_log_likelihood t3 mu sigma * wt)) /\
  run (axis_wavelength_objective_function (NdArray a)) w =
  (w, inr (- gaussian_log_likelihood t3 mu sigma * wt)).
Proof.
  intros Ht3 Hf Ha Hmu1 Hmu2 Hs1 Hs2 Hw1 Hw2.
  destruct a as [|a0 [|a1 [|a2 [|a3 r]]]]; try discriminate.
  inversion Ht3; subst a3.
  split; unfold_methods;
    unfold run, bind, lift, get_constraints, dict_item, array_item, ret;
    simpl; rewrite ?Hf, ?Ha; simpl; unfold dict_item;
    rewrite ?Hmu1, ?Hmu2, ?Hs1, ?Hs2, ?Hw1, ?Hw2; reflexivity.
Qed.

Lemma axial_trace_term_shaped (intercepts : list Q) (info : pyobj) :
  target_shaped info = true ->
  exists t, axial_trace_term intercepts info = inr t.
Proof.
  destruct info as [| | | |d]; try discriminate. simpl.
  intros H. apply andb_prop in H. destruct H as [H Hw].
  apply andb_prop in H. destruct H as [Hmu Hsigma].
  apply dict_contains_get in Hmu, Hsigma, Hw.
  destruct Hmu as [mu Hmu], Hsigma as [sigma Hsigma], Hw as [wt Hw].
  unfold axial_trace_term, subscript, dict_item.
  rewrite Hmu, Hsigma, Hw. cbn [bindR okR]. eexists. reflexivity.
Qed.

Lemma axial_trace_term_unshaped (intercepts : list Q) (d : pydict Q) :
  target_shaped (PyDict d) = false ->
  axial_trace_term intercepts (PyDict d) =
  inl (KeyError (first_missing_target_field d)).
Proof.
  unfold target_shaped, first_missing_target_field, axial_trace_term,
    subscript, dict_item, dict_contains.
  destruct (dict_get "mu" d); [|reflexivity].
  destruct (dict_get "sigma" d); [|reflexivity].
  destruct (dict_get "w" d); [discriminate|reflexivity].
Qed.

(** The loop passes over the entries that are not axial-trace ones and
    accumulates the well-formed ones. *)
Lemma accumulate_axial_traces_prefix (intercepts : list Q)
    (pre rest : pydict pyobj) :
  Forall (fun item => is_axial_trace_item item = true ->
                      target_shaped (snd item) = true) pre ->
  forall t, exists t',
    accumulate_axial_traces intercepts
      (filter is_axial_trace_item (pre ++ rest)) t =
    accumulate_axial_traces intercepts
      (filter is_axial_trace_item rest) t'.
Proof.
  induction 1 as [|[k info] pre Hitem Hpre IH]; intros t.
  - exists t. reflexivity.
  - cbn [app filter]. destruct (is_axial_trace_item (k, info)) eqn:Hax.
    + destruct (axial_trace_term_shaped intercepts info (Hitem eq_refl))
        as [u Hu].
      cbn [accumulate_axial_traces]. rewrite Hu. cbn [bindR].
      apply IH.
    + apply IH.
Qed.

(** X2. With a valid [theta] and at least one intercept, the axial-trace
    sub-objective raises a key error as soon as its scan of the spec reaches
    a mapping under a key containing [axial_trace] that lacks [mu], [sigma]
    or [w]: the error names the first missing field. *)
Theorem axial_trace_entry_without_field (w : world) (a : list Q)
    (pre post : pydict pyobj) (k : string) (d : pydict Q) :
  (4 <= List.length a)%nat ->
  intercept_function (this w) (x (this w)) a <> [] ->
  constraints (this w) = pre ++ (k, PyDict d) :: post ->
  Forall (fun item => is_axial_trace_item item = true ->
                      target_shaped (snd item) = true) pre ->
  str_contains "axial_trace" k = true ->
  target_shaped (PyDict d) = false ->
  outcome (axial_trace_objective_function (NdArray a)) w =
  inl (KeyError (first_missing_target_field d)).
Proof.
  intros Hlen Hne Hcs Hpre Hk Hd. apply Nat.ltb_ge in Hlen.
  unfold_methods.
  unfold outcome, bind, lift, get_intercept_function, get_x,
    record_extraction, get_constraints, ret; simpl.
  rewrite Hlen. simpl.
  destruct (intercept_function (this w) (x (this w)) a) as [|i0 ints] eqn:Hi;
    [congruence|].
  simpl. rewrite Hcs.
  destruct (accumulate_axial_traces_prefix (i0 :: ints) pre
              ((k, PyDict d) :: post) Hpre 0) as [t' ->].
  cbn [filter]. unfold is_axial_trace_item at 1. cbn [fst]. rewrite Hk.
  cbn [accumulate_axial_traces].
  rewrite (axial_trace_term_unshaped (i0 :: ints) d Hd). reflexivity.
Qed.

End SubObjectiveEdges.

(** ** Further properties of the total objective *)

Section TotalObjectiveEdges.
Context {E : Collaborators}.

Lemma sum_constraints_absent (theta : pyobj) (names : list string) :
  forall (total : Q) (w : world),
    (forall k, In k names ->
               dict_contains k (constraints (this w)) = false) ->
    sum_constraints names theta total w = (w, inr total).
Proof.
  induction names as [|key rest IH]; intros total w Habs; [reflexivity|].
  rewrite sum_constraints_unfold, (Habs key (or_introl eq_refl)).
  apply IH. intros k Hk. apply Habs. now right.
Qed.

(** X4. Keys outside the six recognized names are ignored by the total
    objective: when none of the recognized names is a key of the spec, a
    valid [theta] gives the total 0 and no feature is extracted, whatever
    else the spec holds (suffixed axial-trace keys included). *)
Theorem unrecognized_names_are_ignored (xs a : list Q) (cs : pydict pyobj) :
  (4 <= List.length a)%nat ->
  (forall k, In k (constraint_names (__init__ xs cs)) ->
             dict_contains k cs = false) ->
  run (__call__ (NdArray a)) (fresh xs cs) =
  (world_after setup_constraint_functions (fresh xs cs), inr 0).
Proof.
  intros Hlen Habs. unfold run. rewrite (call_unfold a _ Hlen).
  apply sum_constraints_absent. exact Habs.
Qed.

Lemma sum_results_inl (l : list (result Q)) :
  forall t e, sum_results l t = inl e -> In (inl e) l.
Proof.
  induction l as [|r l IH]; intros t e H; simpl in H; [discriminate|].
  destruct r as [e'|v]; simpl in H.
  - inversion H. now left.
  - right. eapply IH. exact H.
Qed.

Lemma sum_results_values (l : list (result Q)) :
  Forall (fun r => exists v, r = inr v) l ->
  forall t, exists v, sum_results l t = inr v.
Proof.
  induction 1 as [|r l [u ->] Hl IH]; intros t; simpl.
  - now exists t.
  - apply IH.
Qed.

(** X11. The total objective raises nothing of its own on a valid [theta]:
    an exception it ends with is the exception that one of the individually
    computed sub-objectives of the names present in the spec ends with. *)
Theorem total_objective_exceptions_come_from_terms (xs a : list Q)
    (cs : pydict pyobj) (e : exn) :
  (4 <= List.length a)%nat ->
  outcome (__call__ (NdArray a)) (fresh xs cs) = inl e ->
  In (inl e) (individually_computed (fresh xs cs) (NdArray a)).
Proof.
  intros Hlen Hout.
  rewrite (call_is_sum_of_individually_computed xs a cs Hlen) in Hout.
  eapply sum_results_inl. exact Hout.
Qed.

Lemma record_reader_returns (f : method) (w : world) (a : list Q)
    (info : pyobj) :
  reads_one_record f = true ->
  (4 <= List.length a)%nat ->
  dict_get (constraint_name_of f) (constraints (this w)) = Some info ->
  target_shaped info = true ->
  exists v, outcome (call_method f (NdArray a)) w = inr v.
Proof.
  intros Hf Hlen Hget Hshape.
  destruct info as [| | | |d]; try discriminate. simpl in Hshape.
  apply andb_prop in Hshape. destruct Hshape as [Hshape Hw].
  apply andb_prop in Hshape. destruct Hshape as [Hmu Hsigma].
  apply dict_contains_get in Hmu, Hsigma, Hw.
  destruct Hmu as [mu Hmu], Hsigma as [sigma Hsigma], Hw as [wt Hw].
  destruct a as [|a0 [|a1 [|a2 [|a3 r]]]]; simpl in Hlen; try lia.
  destruct f; try discriminate; unfold_methods;
    unfold outcome, bind, lift, get_constraints, get_x, record_extraction,
      dict_item, array_item, ret;
    simpl in *; rewrite Hget; simpl; unfold dict_item;
    rewrite Hmu, Hsigma, Hw; simpl; eexists; reflexivity.
Qed.

Lemma axial_trace_returns (w : world) (a : list Q) :
  (4 <= List.length a)%nat ->
  (forall item, In item (constraints (this w)) ->
                is_axial_trace_item item = true ->
                target_shaped (snd item) = true) ->
  exists v, outcome (axial_trace_objective_function (NdArray a)) w = inr v.
Proof.
  intros Hlen Hshape. apply Nat.ltb_ge in Hlen.
  unfold_methods.
  unfold outcome, bind, lift, get_intercept_function, get_x,
    record_extraction, get_constraints, ret; simpl.
  rewrite Hlen. simpl.
  destruct (List.length (intercept_function (this w) (x (this w)) a) =? 0)%nat;
    simpl; [eexists; reflexivity|].
  assert (Hall : Forall (fun item => is_axial_trace_item item = true ->
                                     target_shaped (snd item) = true)
                        (constraints (this w)))
    by (apply Forall_forall; exact Hshape).
  destruct (accumulate_axial_traces_prefix
              (intercept_function (this w) (x (this w)) a)
              (constraints (this w)) [] Hall 0) as [t' Ht'].
  rewrite app_nil_r in Ht'. rewrite Ht'. exists t'. reflexivity.
Qed.

(** X3. The total objective returns a number on a valid [theta] as soon as
    every entry of the spec that it can reach is a target record: the
    entries under a recognized name and the entries under a key containing
    [axial_trace] must be mappings with [mu], [sigma] and [w]. *)
Theorem total_objective_returns_on_target_records (xs a : list Q)
    (cs : pydict pyobj) :
  (4 <= List.length a)%nat ->
  (forall item, In item cs ->
     In (fst item) (constraint_names (__init__ xs cs)) \/
     is_axial_trace_item item = true ->
     target_shaped (snd item) = true) ->
  exists v, outcome (__call__ (NdArray a)) (fresh xs cs) = inr v.
Proof.
  intros Hlen Hshape.
  rewrite (call_is_sum_of_individually_computed xs a cs Hlen).
  apply sum_results_values. apply Forall_forall. intros r Hr.
  unfold individually_computed in Hr. apply in_map_iff in Hr.
  destruct Hr as ([k g] & <- & Hin). apply filter_In in Hin.
  destruct Hin as [Hrec Hpresent]. cbn [fst snd] in *.
  change (constraints (this (fresh xs cs))) with cs in Hpresent.
  apply dict_contains_get in Hpresent. destruct Hpresent as [info Hget].
  pose proof (dict_get_in _ _ _ Hget) as Hitem.
  assert (Hreader : forall f, reads_one_record f = true ->
            k = constraint_name_of f ->
            exists v, outcome (call_method f (NdArray a)) (fresh xs cs) = inr v).
  { intros f Hf ->.
    apply (record_reader_returns f (fresh xs cs) a info Hf Hlen Hget).
    apply (Hshape _ Hitem). left. cbn [fst].
    destruct f; try discriminate; simpl; tauto. }
  unfold recognized_sub_objectives in Hrec.
  destruct Hrec as [Heq|[Heq|[Heq|[Heq|[Heq|[Heq|[]]]]]]];
    inversion Heq; subst k g.
  - apply (Hreader asymmetry_objective); reflexivity.
  - apply (Hreader tightness_objective); reflexivity.
  - apply (Hreader wavelength_objective); reflexivity.
  - apply axial_trace_returns; [exact Hlen|].
    intros item Hi Hax. apply (Hshape item Hi). now right.
  - apply (Hreader hinge_angle_objective); reflexivity.
  - apply (Hreader axis_wavelength_objective); reflexivity.
Qed.

End TotalObjectiveEdges.

(** ** Further properties of the restricted-mode construction *)

Section RestrictedConstraintEdges.
Context {E : Collaborators}.

(** X7. A record with all four fields under a name that the function map
    does not hold ends the construction with a key error for that name,
    once the loop reaches it. *)
Theorem restricted_constraints_unknown_name (w : world)
    (pre post : pydict pyobj) (k : string) (info : pyobj) :
  constraints (this w) = pre ++ (k, info) :: post ->
  Forall (fun item => constructible item = true) pre ->
  record_shaped info = true ->
  dict_contains k the_constraint_function_map = false ->
  run prepare_and_setup_constraints w =
  (world_after setup_constraint_functions w, inl (KeyError k)).
Proof.
  intros Hcs Hpre Hshape Hk. unfold run. rewrite prepare_unfold, Hcs.
  assert (Hbad : constructible (k, info) = false).
  { unfold constructible. cbn [fst snd]. now rewrite Hshape, Hk. }
  rewrite (build_constraints_first_failure
             (world_after setup_constraint_functions w) pre post (k, info)
             eq_refl Hpre Hbad).
  unfold construction_failure. cbn [fst snd].
  destruct info; try discriminate. now rewrite Hshape.
Qed.

Lemma build_constraints_same_bounds (cs cs' : pydict pyobj) :
  Forall2 same_bounds cs cs' ->
  forall acc w w',
    constraint_function_map (this w) = constraint_function_map (this w') ->
    snd (build_constraints cs acc w) = snd (build_constraints cs' acc w').
Proof.
  induction 1 as [|[k info] [k' info'] cs cs' [Hk Hsame] Hrest IH];
    intros acc w w' Hmap; [reflexivity|].
  cbn [fst snd] in Hk, Hsame. subst k'.
  destruct info as [| | | |d], info' as [| | | |d'];
    try contradiction; try reflexivity.
  destruct Hsame as (Hlb & Hub & Hmu & Hsigma).
  rewrite !build_constraints_unfold. unfold dict_item.
  rewrite <- Hlb, <- Hub, <- Hmu, <- Hsigma, <- Hmap.
  destruct (dict_get "lb" d); [|reflexivity].
  destruct (dict_get "ub" d); [|reflexivity].
  destruct (dict_get "mu" d); [|reflexivity].
  destruct (dict_get "sigma" d); [|reflexivity].
  cbv beta iota delta [okR raiseR].
  destruct (constraint_function_map (this w)) as [m|] eqn:Hm; [|reflexivity].
  destruct (dict_get k m); [|reflexivity].
  destruct (array_min _); [reflexivity|].
  destruct (array_max _); [reflexivity|].
  apply IH. congruence.
Qed.

(** X8. The descriptors depend on the names and on the fields [lb], [ub],
    [mu] and [sigma] only: two specs whose entries agree on these give the
    same outcome, whatever their weights [w], their other fields and the
    frame coordinates are. *)
Theorem restricted_constraints_ignore_weights (xs xs' : list Q)
    (cs cs' : pydict pyobj) :
  Forall2 same_bounds cs cs' ->
  outcome prepare_and_setup_constraints (fresh xs cs) =
  outcome prepare_and_setup_constraints (fresh xs' cs').
Proof.
  intros Hsame. unfold outcome. rewrite !prepare_unfold.
  now apply build_constraints_same_bounds.
Qed.

End RestrictedConstraintEdges.

(** ** The solver facade *)

Section SolverFacts.
Context {S : Scipy}.

Lemma dict_get_absent {V} (key : string) (d : pydict V) :
  ~ In key (keys d) -> dict_get key d = None.
Proof.
  induction d as [|[k v] d IH]; simpl; intros H; [reflexivity|].
  destruct (String.eqb_spec key k) as [->|_].
  - exfalso. apply H. now left.
  - apply IH. intros Hin. apply H. now right.
Qed.

Lemma bind_defaults_keys fname params locals bound :
  bind_defaults fname params locals = inr bound ->
  keys bound = map (fun p => fst (fst p)) params.
Proof.
  revert bound. induction params as [|[[name h] default] ps IH];
    simpl; intros bound Hb.
  - inversion Hb. reflexivity.
  - destruct (dict_get name locals) as [v|]; [|destruct default as [v|]];
      simpl in Hb; try discriminate;
      (destruct (conforms h v); [|discriminate]);
      (destruct (bind_defaults fname ps locals) as [e|rest];
         [discriminate|]);
      simpl in Hb; inversion Hb; subst; simpl; f_equal; now apply IH.
Qed.

Lemma bindR_inr {A B} (r : result A) (k : A -> result B) (b : B) :
  bindR r k = inr b -> exists a, r = inr a /\ k a = inr b.
Proof.
  destruct r as [e|a]; simpl; intros H; [discriminate|].
  exists a. split; [reflexivity|exact H].
Qed.

Lemma callback_is_not_local positional keywords locals :
  bind_arguments "differential_evolution" differential_evolution_parameters
    positional keywords = inr locals ->
  dict_get "callback" locals = None.
Proof.
  unfold bind_arguments. intros H.
  apply bindR_inr in H. destruct H as (byp & _ & H).
  apply bindR_inr in H. destruct H as (filled & _ & H).
  apply bindR_inr in H. destruct H as (bound & Hb & H).
  inversion H; subst.
  apply dict_get_absent. unfold keys. rewrite map_app.
  apply bind_defaults_keys in Hb. unfold keys in Hb. rewrite Hb.
  cbn. intros Hin.
  repeat (destruct Hin as [Hin|Hin]; [discriminate Hin|]). exact Hin.
Qed.

(** C3. Whatever the objective, the bounds and the seed, a call of
    [Solver.differential_evolution] does not return a result record: its
    body loads the name [callback], which is neither a parameter nor a
    module-level name, so every call raises; with an objective, a list of
    bounds and a seed the exception is [NameError] for [callback], and
    scipy's optimizer is never reached. *)
Theorem differential_evolution_never_returns :
  (forall positional keywords,
      exists e, differential_evolution positional keywords = inl e) /\
  (forall objective bounds seed,
      differential_evolution [VCallable objective; VPairs bounds]
        [("seed", VInt seed)] = inl (NameError "callback")).
Proof.
  split.
  - intros positional keywords. unfold differential_evolution.
    destruct (bind_arguments _ _ positional keywords) as [e|locals] eqn:Hb.
    + exists e. reflexivity.
    + pose proof (callback_is_not_local _ _ _ Hb) as Hcb.
      cbv beta zeta. unfold bindR at 1.
      repeat match goal with
      | |- exists e, bindR (load_name locals "callback") _ = inl e =>
          unfold load_name; rewrite Hcb; cbn; eexists; reflexivity
      | |- exists e, bindR ?r _ = inl e =>
          destruct r; [eexists; reflexivity|]; unfold bindR at 1
      | |- exists e, match ?r with inl _ => _ | inr _ => _ end = inl e =>
          destruct r; [eexists; reflexivity|]
      end.
  - intros objective bounds seed. reflexivity.
Qed.

(** C9. Looking up a reserved strategy returns [None] without raising, and
    only calling that [None] raises; looking up the two implemented
    strategies returns the corresponding static method. *)
Theorem getitem_reserved_strategies (self : Solver) :
  __getitem__ self UNCONSTRAINED_TRUST_REGION = inr OpNone /\
  __getitem__ self PARTICLE_SWARM = inr OpNone /\
  (forall positional keywords,
      call_operation OpNone positional keywords =
      inl (TypeError "'NoneType' object is not callable")) /\
  __getitem__ self DIFFERENTIAL_EVOLUTION = inr (OpFunction differential_evolution) /\
  __getitem__ self CONSTRAINED_TRUST_REGION = inr (OpFunction constrained_trust_region) /\
  (forall positional keywords,
      call_operation (OpFunction differential_evolution) positional keywords =
      differential_evolution positional keywords) /\
  (forall positional keywords,
      call_operation (OpFunction constrained_trust_region) positional keywords =
      constrained_trust_region positional keywords).
Proof.
  repeat split.
Qed.

End SolverFacts.

(** ** Further properties of the solver facade *)

Section KeywordFacts.

Lemma dict_contains_keys {V} (key : string) (d : pydict V) :
  In key (keys d) -> dict_contains key d = true.
Proof.
  unfold dict_contains. induction d as [|[k v] d IH]; simpl; [contradiction|].
  intros [<-|Hin].
  - now rewrite String.eqb_refl.
  - destruct (String.eqb key k); [reflexivity|now apply IH].
Qed.

Lemma dict_contains_absent {V} (key : string) (d : pydict V) :
  ~ In key (keys d) -> dict_contains key d = false.
Proof.
  intros H. unfold dict_contains. now rewrite (dict_get_absent key d H).
Qed.

Lemma bind_keywords_extra (fname : string) (params : list parameter)
    (keywords : pydict value) :
  (forall k, In k (keys keywords) -> is_parameter params k = false) ->
  forall locals kwargs,
    bind_keywords fname params keywords locals kwargs =
    inr (locals, kwargs ++ keywords).
Proof.
  induction keywords as [|[name v] rest IH]; intros Hkeys locals kwargs.
  - simpl. now rewrite app_nil_r.
  - cbn [bind_keywords]. rewrite (Hkeys name (or_introl eq_refl)).
    rewrite IH by (intros k Hk; apply Hkeys; now right).
    now rewrite <- app_assoc.
Qed.

Lemma merge_keywords_disjoint (fname : string) (kwargs : pydict value) :
  NoDup (keys kwargs) ->
  forall explicit,
    (forall k, In k (keys kwargs) -> ~ In k (keys explicit)) ->
    merge_keywords fname explicit kwargs = inr (explicit ++ kwargs).
Proof.
  induction kwargs as [|[name v] rest IH]; intros Hnd explicit Hdis.
  - simpl. now rewrite app_nil_r.
  - cbn [merge_keywords]. inversion Hnd as [|? ? Hname Hnd']; subst.
    rewrite (dict_contains_absent name explicit (Hdis name (or_introl eq_refl))).
    rewrite (IH Hnd').
    + now rewrite <- app_assoc.
    + intros k Hk Hin. unfold keys in Hin. rewrite map_app in Hin.
      apply in_app_or in Hin. destruct Hin as [Hin|[<-|[]]].
      * apply (Hdis k (or_intror Hk)). exact Hin.
      * apply Hname. exact Hk.
Qed.

Lemma merge_keywords_clash (fname : string) (kwargs : pydict value)
    (key : string) :
  In key (keys kwargs) ->
  forall explicit,
    In key (keys explicit) ->
    exists msg, merge_keywords fname explicit kwargs = inl (TypeError msg).
Proof.
  induction kwargs as [|[name v] rest IH]; intros Hin explicit Hex;
    [contradiction|].
  cbn [merge_keywords].
  destruct (dict_contains name explicit) eqn:Hc; [eexists; reflexivity|].
  destruct Hin as [Heq|Hin].
  - cbn [fst] in Heq. subst name.
    rewrite (dict_contains_keys key explicit Hex) in Hc. discriminate.
  - apply (IH Hin). unfold keys. rewrite map_app. apply in_or_app. now left.
Qed.

Lemma trust_region_parameter_free (k : string) :
  ~ In k ["objective_function"; "x0"; "constraints"] ->
  is_parameter constrained_trust_region_parameters k = false.
Proof.
  intros H. unfold is_parameter, constrained_trust_region_parameters.
  cbn [existsb fst].
  destruct (String.eqb_spec k "objective_function") as [->|_];
    [exfalso; apply H; simpl; tauto|].
  destruct (String.eqb_spec k "x0") as [->|_];
    [exfalso; apply H; simpl; tauto|].
  destruct (String.eqb_spec k "constraints") as [->|_];
    [exfalso; apply H; simpl; tauto|].
  reflexivity.
Qed.

End KeywordFacts.

Section SolverEdges.
Context {S : Scipy}.

(** The local variables and the keyword dictionary of a call of
    [constrained_trust_region] with three positional arguments and extra
    keywords. *)
Lemma trust_region_unfold (objective : list Q -> Q) (x0 : list Q)
    (c : value) (extra : pydict value) :
  (forall k, In k (keys extra) ->
             ~ In k ["objective_function"; "x0"; "constraints"]) ->
  constrained_trust_region [VCallable objective; VArray x0; c] extra =
  let? kws := merge_keywords "constrained_trust_region"
                (trust_region_keywords c) extra in
  scipy_minimize [VCallable objective; VArray x0] kws.
Proof.
  intros Hfree. unfold constrained_trust_region, bind_arguments.
  cbn [bind_positional constrained_trust_region_parameters bindR okR].
  rewrite bind_keywords_extra
    by (intros k Hk; apply trust_region_parameter_free; now apply Hfree).
  cbn [bindR fst snd app]. cbn.
  destruct (merge_keywords _ _ extra) as [e|kws]; [reflexivity|].
  cbn. destruct (scipy_minimize _ kws); reflexivity.
Qed.

(** X9. Looked up under [CONSTRAINED_TRUST_REGION] and called with an
    objective, an initial array, a constraints value and further keyword
    options, the facade hands scipy's [minimize] the objective and the
    array with [method="trust-constr"], [jac="2-point"], the constraints
    and then the options in their order, and returns whatever [minimize]
    returns. *)
Theorem trust_region_forwards_to_minimize (self : Solver)
    (objective : list Q -> Q) (x0 : list Q) (c : value)
    (extra : pydict value) :
  NoDup (keys extra) ->
  (forall k, In k (keys extra) ->
     ~ In k ["objective_function"; "x0"; "constraints"; "method"; "jac"]) ->
  (let? op := __getitem__ self CONSTRAINED_TRUST_REGION in
   call_operation op [VCallable objective; VArray x0; c] extra) =
  scipy_minimize [VCallable objective; VArray x0]
    (trust_region_keywords c ++ extra).
Proof.
  intros Hnd Hfree. cbn [__getitem__ solver_map_get SolverType_eqb bindR okR
                          call_operation].
  rewrite trust_region_unfold
    by (intros k Hk Hin; apply (Hfree k Hk); simpl in *; tauto).
  rewrite merge_keywords_disjoint; [reflexivity|exact Hnd|].
  intros k Hk Hin. apply (Hfree k Hk). simpl in *. tauto.
Qed.

End SolverEdges.

(** X10. The caller cannot override the method or the derivative mode: a
    call of [constrained_trust_region] whose extra keywords hold [method]
    or [jac] raises a type error, the same whatever scipy's [minimize]
    would do. *)
Theorem trust_region_rejects_method_override (objective : list Q -> Q)
    (x0 : list Q) (c : value) (extra : pydict value) :
  (forall k, In k (keys extra) ->
             ~ In k ["objective_function"; "x0"; "constraints"]) ->
  In "method" (keys extra) \/ In "jac" (keys extra) ->
  exists msg, forall S : Scipy,
    @constrained_trust_region S [VCallable objective; VArray x0; c] extra =
    inl (TypeError msg).
Proof.
  intros Hfree Hover.
  assert (Hclash : exists msg,
            merge_keywords "constrained_trust_region"
              (trust_region_keywords c) extra = inl (TypeError msg)).
  { destruct Hover as [Hm|Hj].
    - apply (merge_keywords_clash _ extra "method" Hm). simpl. tauto.
    - apply (merge_keywords_clash _ extra "jac" Hj). simpl. tauto. }
  destruct Hclash as [msg Hmsg]. exists msg. intros S.
  rewrite (trust_region_unfold objective x0 c extra Hfree), Hmsg.
  reflexivity.
Qed.

(** X1. [Solver.differential_evolution] never reaches scipy's optimizer:
    its outcome is the same whatever that optimizer would do. *)
Theorem differential_evolution_never_reaches_scipy (S S' : Scipy)
    (positional : list value) (keywords : pydict value) :
  @differential_evolution S positional keywords =
  @differential_evolution S' positional keywords.
Proof.
  unfold differential_evolution.
  destruct (bind_arguments _ _ positional keywords) as [e|locals] eqn:Hb;
    [reflexivity|].
  pose proof (callback_is_not_local _ _ _ Hb) as Hcb.
  assert (Hload : load_name locals "callback" = inl (NameError "callback"))
    by (unfold load_name; rewrite Hcb; reflexivity).
  cbv beta zeta. cbn [bindR].
  repeat match goal with
  | |- bindR (load_name locals "callback") _ = _ =>
      rewrite Hload; reflexivity
  | |- bindR ?r _ = bindR ?r _ =>
      destruct r; [reflexivity|]; cbn [bindR]
  end.
Qed.

(** ** The properties at concrete inputs *)



(** C7, counterexample. The entry is a mapping that lacks [lb] and [ub], so
    it is not record-shaped, yet the exception is a key error, not a type
    error. *)
Lemma restricted_constraints_missing_field_is_key_error :
  record_shaped (example_target 45 5 1) = false /\
  outcome (@prepare_and_setup_constraints example_collaborators)
          (@fresh example_collaborators [0; 1] example_unbounded_spec) =
  inl (KeyError "lb").
Proof.
  split; reflexivity.
Qed.

(** C7, witness: a bounded record, then an entry that is a float. *)
Lemma restricted_constraints_all_or_nothing_witness :
  example_float_spec =
    [("tightness", example_record 40 50 45 5 1)] ++
    ("asymmetry", PyFloat 3) :: [] /\
  Forall (fun item => @constructible example_collaborators item = true)
         [("tightness", example_record 40 50 45 5 1)] /\
  record_shaped (PyFloat 3) = false /\
  run (@prepare_and_setup_constraints example_collaborators)
      (@fresh example_collaborators [0; 1] example_float_spec) =
  (world_after (@setup_constraint_functions)
     (@fresh example_collaborators [0; 1] example_float_spec),
   inl (TypeError "`constraint_info` should be a dictionary.")).
Proof.
  assert (H : Forall (fun item => @constructible example_collaborators item = true)
                     [("tightness", example_record 40 50 45 5 1)])
    by (repeat constructor).
  split; [reflexivity|]. split; [exact H|]. split; [reflexivity|].
  exact (proj2 (@restricted_constraints_all_or_nothing example_collaborators
                  (@fresh example_collaborators [0; 1] example_float_spec))
               [("tightness", example_record 40 50 45 5 1)]
               ("asymmetry", PyFloat 3) [] eq_refl H eq_refl).
Defined.



(** C5, witness: no intercepts, one axial-trace target. *)
Lemma no_intercepts_returns_999_witness :
  (4 <= List.length [0; 1; 1; 500])%nat /\
  intercept_function (this (@fresh example_no_intercepts [0; 1] example_soft_spec))
    [0; 1] [0; 1; 1; 500] = [] /\
  run (@axial_trace_objective_function example_no_intercepts example_theta)
      (@fresh example_no_intercepts [0; 1] example_soft_spec) =
  (logged (@fresh example_no_intercepts [0; 1] example_soft_spec)
          (ExtractIntercepts [0; 1] [0; 1; 1; 500]), inr 999).
Proof.
  assert (Hlen : (4 <= List.length [0; 1; 1; 500])%nat) by (simpl; lia).
  split; [exact Hlen|]. split; [reflexivity|].
  exact (@no_intercepts_returns_999 example_no_intercepts
           (@fresh example_no_intercepts [0; 1] example_soft_spec)
           [0; 1; 1; 500] Hlen eq_refl).
Defined.

(** C6, witness: a Python list, and an array of three parameters. *)
Lemma invalid_theta_raises_witness :
  is_ndarray (PyList [0; 1; 1; 500]) = false /\
  @all_raise example_collaborators
    (@fresh example_collaborators [0; 1] example_soft_spec)
    (PyList [0; 1; 1; 500]) (TypeError "`theta` should be a numpy array.") /\
  (List.length [0; 1; 1] < 4)%nat /\
  @all_raise example_collaborators
    (@fresh example_collaborators [0; 1] example_soft_spec)
    (NdArray [0; 1; 1])
    (ValueError "`theta` should have at least 4 Fourier series parameters.").
Proof.
  assert (Hlen : (List.length [0; 1; 1] < 4)%nat) by (simpl; lia).
  split; [reflexivity|]. split.
  - exact (proj1 (@invalid_theta_raises example_collaborators
                    (@fresh example_collaborators [0; 1] example_soft_spec)
                    (PyList [0; 1; 1; 500])) eq_refl).
  - split; [exact Hlen|].
    exact (proj2 (@invalid_theta_raises example_collaborators
                    (@fresh example_collaborators [0; 1] example_soft_spec)
                    (NdArray [0; 1; 1])) [0; 1; 1] eq_refl Hlen).
Defined.

(** C8, witness: equal tightness and hinge-angle targets. *)
Lemma hinge_angle_is_tightness_witness :
  dict_get "hinge_angle" example_hinge_spec = Some (example_target 45 5 1) /\
  dict_get "tightness" example_hinge_spec = Some (example_target 45 5 1) /\
  run (@hinge_angle_objective_function example_collaborators example_theta)
      (@fresh example_collaborators [0; 1] example_hinge_spec) =
  run (@tightness_objective_function example_collaborators example_theta)
      (@fresh example_collaborators [0; 1] example_hinge_spec).
Proof.
  split; [reflexivity|]. split; [reflexivity|].
  exact (proj1 (@hinge_angle_is_tightness example_collaborators
                  (@fresh example_collaborators [0; 1] example_hinge_spec)
                  example_theta
                  [("mu", 45); ("sigma", 5); ("w", 1)]
                  [("mu", 45); ("sigma", 5); ("w", 1)]
                  45 5 1
                  eq_refl eq_refl eq_refl eq_refl eq_refl eq_refl
                  eq_refl eq_refl)).
Defined.

(** C10, counterexample. A total-objective call whose [theta] fails
    validation raises before the function map is rebuilt: on a fresh
    aggregator the map is still unset after the call. *)
Lemma invalid_call_leaves_function_map_unset :
  outcome (@__call__ example_collaborators (NdArray [0; 1; 1]))
          (@fresh example_collaborators [0; 1] example_soft_spec) =
  inl (ValueError "`theta` should have at least 4 Fourier series parameters.") /\
  constraint_function_map
    (this (world_after (@__call__ example_collaborators (NdArray [0; 1; 1]))
             (@fresh example_collaborators [0; 1] example_soft_spec))) = None.
Proof.
  split; reflexivity.
Qed.

(** ** The further properties at concrete inputs *)

(** X2, witness: the axial-trace record of the constructor's docstring. *)
Lemma axial_trace_entry_without_field_witness :
  (4 <= List.length [0; 1; 1; 500])%nat /\
  example_docstring_spec =
    [("tightness", example_target 45 5 1)] ++
    ("axial_traces", PyDict [("mu", 0); ("sigma", 1)]) :: [] /\
  target_shaped (PyDict [("mu", 0); ("sigma", 1)]) = false /\
  outcome (@axial_trace_objective_function example_collaborators example_theta)
          (@fresh example_collaborators [0; 1] example_docstring_spec) =
  inl (KeyError "w").
Proof.
  assert (Hlen : (4 <= List.length [0; 1; 1; 500])%nat) by (simpl; lia).
  assert (Hne : intercept_function
                  (this (@fresh example_collaborators [0; 1]
                           example_docstring_spec))
                  [0; 1] [0; 1; 1; 500] <> []) by discriminate.
  assert (Hpre : Forall (fun item => is_axial_trace_item item = true ->
                                     target_shaped (snd item) = true)
                        [("tightness", example_target 45 5 1)]).
  { constructor; [|constructor]. intros H. discriminate H. }
  split; [exact Hlen|]. split; [reflexivity|]. split; [reflexivity|].
  exact (@axial_trace_entry_without_field example_collaborators
           (@fresh example_collaborators [0; 1] example_docstring_spec)
           [0; 1; 1; 500] [("tightness", example_target 45 5 1)] []
           "axial_traces" [("mu", 0); ("sigma", 1)]
           Hlen Hne eq_refl Hpre eq_refl eq_refl).
Defined.

(** X3, witness: a tightness and an axial-trace target. *)
Lemma total_objective_returns_on_target_records_witness :
  (4 <= List.length [0; 1; 1; 500])%nat /\
  exists v,
    outcome (@__call__ example_collaborators example_theta)
            (@fresh example_collaborators [0; 1] example_soft_spec) = inr v.
Proof.
  assert (Hlen : (4 <= List.length [0; 1; 1; 500])%nat) by (simpl; lia).
  split; [exact Hlen|].
  apply (@total_objective_returns_on_target_records example_collaborators
           [0; 1] [0; 1; 1; 500] example_soft_spec Hlen).
  intros item [<-|[<-|[]]] _; reflexivity.
Defined.

(** X4, witness: suffixed axial-trace keys and an unknown name only. *)
Lemma unrecognized_names_are_ignored_witness :
  (4 <= List.length [0; 1; 1; 500])%nat /\
  run (@__call__ example_collaborators example_theta)
      (@fresh example_collaborators [0; 1] example_suffixed_spec) =
  (world_after (@setup_constraint_functions)
     (@fresh example_collaborators [0; 1] example_suffixed_spec), inr 0).
Proof.
  assert (Hlen : (4 <= List.length [0; 1; 1; 500])%nat) by (simpl; lia).
  split; [exact Hlen|].
  apply (@unrecognized_names_are_ignored example_collaborators
           [0; 1] [0; 1; 1; 500] example_suffixed_spec Hlen).
  intros k Hk. simpl in Hk.
  repeat (destruct Hk as [<-|Hk]; [reflexivity|]). contradiction.
Defined.

(** X5, witness: no tightness record, and a float under [asymmetry]. *)
Lemma sub_objective_without_record_witness :
  (4 <= List.length [0; 1; 1; 500])%nat /\
  run (@call_method example_collaborators tightness_objective example_theta)
      (@fresh example_collaborators [0; 1] example_suffixed_spec) =
  (@fresh example_collaborators [0; 1] example_suffixed_spec,
   inl (KeyError "tightness")) /\
  run (@call_method example_collaborators asymmetry_objective example_theta)
      (@fresh example_collaborators [0; 1] example_float_spec) =
  (@fresh example_collaborators [0; 1] example_float_spec,
   inl (TypeError "'float' object is not subscriptable")).
Proof.
  assert (Hlen : (4 <= List.length [0; 1; 1; 500])%nat) by (simpl; lia).
  split; [exact Hlen|]. split.
  - exact (proj1 (@sub_objective_without_record example_collaborators
                    tightness_objective
                    (@fresh example_collaborators [0; 1] example_suffixed_spec)
                    [0; 1; 1; 500] eq_refl Hlen) eq_refl).
  - exact (proj2 (@sub_objective_without_record example_collaborators
                    asymmetry_objective
                    (@fresh example_collaborators [0; 1] example_float_spec)
                    [0; 1; 1; 500] eq_refl Hlen) 3 eq_refl).
Defined.

(** X6, witness: equal targets for the two wavelengths. *)
Lemma wavelength_objectives_score_theta3_witness :
  nth_error [0; 1; 1; 500] 3 = Some 500 /\
  run (@wavelength_objective_function example_collaborators example_theta)
      (@fresh example_collaborators [0; 1] example_wavelength_spec) =
  (@fresh example_collaborators [0; 1] example_wavelength_spec,
   inr (- @gaussian_log_likelihood example_collaborators 500 500 50 * 2)) /\
  run (@axis_wavelength_objective_function example_collaborators example_theta)
      (@fresh example_collaborators [0; 1] example_wavelength_spec) =
  (@fresh example_collaborators [0; 1] example_wavelength_spec,
   inr (- @gaussian_log_likelihood example_collaborators 500 500 50 * 2)).
Proof.
  split; [reflexivity|].
  exact (@wavelength_objectives_score_theta3 example_collaborators
           (@fresh example_collaborators [0; 1] example_wavelength_spec)
           [0; 1; 1; 500] 500
           [("mu", 500); ("sigma", 50); ("w", 2)]
           [("mu", 500); ("sigma", 50); ("w", 2)] 500 50 2
           eq_refl eq_refl eq_refl eq_refl eq_refl eq_refl eq_refl eq_refl
           eq_refl).
Defined.

(** X7, witness: a full record under the unknown name [curvature]. *)
Lemma restricted_constraints_unknown_name_witness :
  example_unknown_name_spec =
    [("tightness", example_record 40 50 45 5 1)] ++
    ("curvature", example_record 0 1 0 1 1) :: [] /\
  record_shaped (example_record 0 1 0 1 1) = true /\
  dict_contains "curvature" (@the_constraint_function_map) = false /\
  run (@prepare_and_setup_constraints example_collaborators)
      (@fresh example_collaborators [0; 1] example_unknown_name_spec) =
  (world_after (@setup_constraint_functions)
     (@fresh example_collaborators [0; 1] example_unknown_name_spec),
   inl (KeyError "curvature")).
Proof.
  assert (Hpre : Forall (fun item => @constructible example_collaborators item = true)
                        [("tightness", example_record 40 50 45 5 1)])
    by (repeat constructor).
  split; [reflexivity|]. split; [reflexivity|]. split; [reflexivity|].
  exact (@restricted_constraints_unknown_name example_collaborators
           (@fresh example_collaborators [0; 1] example_unknown_name_spec)
           [("tightness", example_record 40 50 45 5 1)] []
           "curvature" (example_record 0 1 0 1 1)
           eq_refl Hpre eq_refl eq_refl).
Defined.

(** X8, witness: the bounded spec with other weights, an extra field and
    other frame coordinates. *)
Lemma restricted_constraints_ignore_weights_witness :
  Forall2 same_bounds example_bounded_spec example_bounded_spec_reweighted /\
  outcome (@prepare_and_setup_constraints example_collaborators)
          (@fresh example_collaborators [0; 1] example_bounded_spec) =
  outcome (@prepare_and_setup_constraints example_collaborators)
          (@fresh example_collaborators [2; 3; 4]
             example_bounded_spec_reweighted).
Proof.
  assert (H : Forall2 same_bounds example_bounded_spec
                      example_bounded_spec_reweighted).
  { repeat constructor. }
  split; [exact H|].
  exact (@restricted_constraints_ignore_weights example_collaborators
           [0; 1] [2; 3; 4] example_bounded_spec
           example_bounded_spec_reweighted H).
Defined.

(** X9, witness: one further option. *)
Lemma trust_region_forwards_to_minimize_witness :
  NoDup (keys [("tol", VFloats [1 # 1000])]) /\
  (let? op := @__getitem__ example_scipy
                (Solver_init "differential_evolution" [])
                CONSTRAINED_TRUST_REGION in
   call_operation op [VCallable (fun p => nth 0 p 0 * nth 0 p 0);
                      VArray [5]; VNone]
                  [("tol", VFloats [1 # 1000])]) =
  @scipy_minimize example_scipy
    [VCallable (fun p => nth 0 p 0 * nth 0 p 0); VArray [5]]
    (trust_region_keywords VNone ++ [("tol", VFloats [1 # 1000])]).
Proof.
  assert (Hnd : NoDup (keys [("tol", VFloats [1 # 1000])])).
  { repeat constructor. simpl. tauto. }
  split; [exact Hnd|].
  apply (@trust_region_forwards_to_minimize example_scipy
           (Solver_init "differential_evolution" [])
           (fun p => nth 0 p 0 * nth 0 p 0) [5] VNone
           [("tol", VFloats [1 # 1000])] Hnd).
  intros k [<-|[]] Hin. simpl in Hin.
  repeat (destruct Hin as [Hin|Hin]; [discriminate Hin|]). exact Hin.
Defined.

(** X10, witness: an attempt to choose another method. *)
Lemma trust_region_rejects_method_override_witness :
  In "method" (keys [("method", VStr "BFGS")]) /\
  exists msg, forall S : Scipy,
    @constrained_trust_region S
      [VCallable (fun p => nth 0 p 0 * nth 0 p 0); VArray [5]; VNone]
      [("method", VStr "BFGS")] = inl (TypeError msg).
Proof.
  assert (Hin : In "method" (keys [("method", VStr "BFGS")]))
    by (simpl; tauto).
  split; [exact Hin|].
  apply (trust_region_rejects_method_override
           (fun p => nth 0 p 0 * nth 0 p 0) [5] VNone
           [("method", VStr "BFGS")]).
  - intros k [<-|[]] H. simpl in H.
    repeat (destruct H as [H|H]; [discriminate H|]). exact H.
  - left. exact Hin.
Defined.

(** X11, witness: the docstring's axial-trace record makes the total
    objective raise the key error of the axial-trace sub-objective. *)
Lemma total_objective_exceptions_come_from_terms_witness :
  (4 <= List.length [0; 1; 1; 500])%nat /\
  outcome (@__call__ example_collaborators example_theta)
          (@fresh example_collaborators [0; 1] example_docstring_spec) =
  inl (KeyError "w") /\
  In (inl (KeyError "w"))
     (@individually_computed example_collaborators
        (@fresh example_collaborators [0; 1] example_docstring_spec)
        example_theta).
Proof.
  assert (Hlen : (4 <= List.length [0; 1; 1; 500])%nat) by (simpl; lia).
  assert (Hout : outcome (@__call__ example_collaborators example_theta)
                   (@fresh example_collaborators [0; 1] example_docstring_spec) =
                 inl (KeyError "w")) by reflexivity.
  split; [exact Hlen|]. split; [exact Hout|].
  exact (@total_objective_exceptions_come_from_terms example_collaborators
           [0; 1] [0; 1; 1; 500] example_docstring_spec (KeyError "w")
           Hlen Hout).
Defined.
